(** * MeteorSim: impact and mitigation calculators

    A shallow embedding of the two calculation modules of
    [src/services/nasaService.ts] (the "Impact Calculations Service" and
    the "Mitigation Service"), of the application component that calls
    them and of [latLonToCartesian], and the properties the
    specification states about them.

    Number model.  The program computes with JavaScript numbers, that is
    IEEE 754 binary64.  The formulas are embedded twice.

    - Over the real numbers, with the exact operations of [R]: this is
      what the program computes up to rounding, as long as no
      intermediate value overflows, underflows or is NaN.  Statements
      about orders and bounds therefore carry the ranges of their inputs
      and, where two values could round to the same number, a margin
      between them; statements that two differently computed numbers
      are equal are made up to rounding ([closeTo]).
    - In [Binary64], on primitive binary64 numbers, for the functions
      that use only arithmetic that these numbers provide.  It shows
      what the program returns outside those ranges and in the last
      place.

    [Math.random] is an explicit source of draws threaded through the
    functions that may consult it. *)

From Stdlib Require Import Reals Lra Lia Bool String List Floats.
Import ListNotations.

Set Warnings "-inexact-float".

Open Scope R_scope.

(** ** The fragment of the JavaScript [Math] object used by the services *)

Module JSMath.

Definition PI : R := Rtrigo1.PI.
Definition abs (x : R) : R := Rabs x.
Definition min (x y : R) : R := Rmin x y.
Definition max (x y : R) : R := Rmax x y.
Definition sin (x : R) : R := Rtrigo_def.sin x.
Definition cos (x : R) : R := Rtrigo_def.cos x.

(** [Math.pow(x, n)] at the call sites whose exponent is the literal
    [2] or [3]: plain repeated multiplication, for every base. *)
Definition pow_n (x : R) (n : nat) : R := x ^ n.

(** [Math.pow(x, y)] at the call sites whose exponent is a positive
    literal that is not an integer (0.22, 1/3, 0.33, 0.41, 0.25).  On a
    positive base it is [exp (y * ln x)], and it is [0] at base [0].
    On a negative base JavaScript yields [NaN]; the model yields [0]
    there and nothing below relies on that value. *)
Definition pow (x y : R) : R :=
  if Rlt_dec 0 x then Rpower x y else 0.

(** [Math.log10], on positive arguments. *)
Definition log10 (x : R) : R := ln x / ln 10.

(** [Math.round]: the nearest integer, halves rounded up. *)
Definition round (x : R) : R := IZR (Int_part (x + 0.5)).

End JSMath.

(** Comparisons as the booleans the source branches on. *)

Definition Rltb (x y : R) : bool := if Rlt_dec x y then true else false.
Definition Rgtb (x y : R) : bool := Rltb y x.

Infix "<?" := Rltb (at level 70, no associativity) : R_scope.
Infix ">?" := Rgtb (at level 70, no associativity) : R_scope.

(** ** [Math.random] as a source of draws

    The source reads the ambient generator.  Here the generator is the
    sequence of the values its successive calls return; a computation
    receives the sequence and hands back what is left of it. *)

Definition RandomSource : Type := nat -> R.

Definition Rand (A : Type) : Type := RandomSource -> A * RandomSource.

Definition ret {A : Type} (a : A) : Rand A := fun s => (a, s).

Definition bind {A B : Type} (m : Rand A) (k : A -> Rand B) : Rand B :=
  fun s => let (a, s') := m s in k a s'.

(** What is left of the source after one draw. *)
Definition rest (s : RandomSource) : RandomSource := fun n => s (S n).

Definition Math_random : Rand R := fun s => (s 0%nat, rest s).

(** The value a computation returns on a given source. *)
Definition eval {A : Type} (m : Rand A) (s : RandomSource) : A := fst (m s).

Notation "x <- m ;; k" := (bind m (fun x => k))
  (at level 61, m at next level, right associativity).

(** ** Impact Calculations Service *)

Definition ASTEROID_DENSITY : R := 3000.
Definition TNT_ENERGY : R := 4.184e9.
Definition EARTH_OCEAN_COVERAGE : R := 0.71.

Module AsteroidData.
Record t : Type := mk {
  diameter : R;
  velocity : R;
  angle : R;
  impactLat : R;
  impactLon : R
}.
End AsteroidData.

Module ImpactResults.
Record t : Type := mk {
  mass : R;
  energy : R;
  craterDiameter : R;
  craterDepth : R;
  shockwaveRadius : R;
  seismicMagnitude : R;
  thermalRadius : R;
  isOceanImpact : bool;
  tsunamiHeight : option R;
  affectedPopulation : R
}.

(** The assignment [results.tsunamiHeight = h]. *)
Definition set_tsunamiHeight (h : R) (r : t) : t :=
  mk (mass r) (energy r) (craterDiameter r) (craterDepth r)
     (shockwaveRadius r) (seismicMagnitude r) (thermalRadius r)
     (isOceanImpact r) (Some h) (affectedPopulation r).
End ImpactResults.

Definition calculateMass (diameter : R) : R :=
  let radius := diameter / 2 in
  let volume := (4 / 3) * JSMath.PI * JSMath.pow_n radius 3 in
  volume * ASTEROID_DENSITY.

Definition calculateEnergy (mass velocity : R) : R :=
  let velocityMs := velocity * 1000 in
  let energyJoules := 0.5 * mass * JSMath.pow_n velocityMs 2 in
  let energyKilotons := energyJoules / TNT_ENERGY in
  let energyMegatons := energyKilotons / 1000 in
  energyMegatons.

Definition calculateCraterDiameter
    (energy velocity angle : R) (isOcean : bool) : R :=
  let energyJoules := energy * 1e6 * TNT_ENERGY in
  let angleRadians := (angle * JSMath.PI) / 180 in
  let angleEfficiency := JSMath.pow (JSMath.sin angleRadians) (1 / 3) in
  let terrainFactor := if isOcean then 0.8 else 1.0 in
  let scalingConstant := 1.8e-3 in
  let diameter :=
    scalingConstant * JSMath.pow energyJoules 0.22
      * angleEfficiency * terrainFactor in
  diameter / 1000.

Definition calculateCraterDepth (diameter : R) : R := diameter / 4.

Definition calculateShockwaveRadius (energy : R) : R :=
  JSMath.pow energy 0.33 * 2.5.

Definition calculateThermalRadius (energy : R) : R :=
  JSMath.pow energy 0.41 * 3.2.

Definition calculateSeismicMagnitude (energy : R) : R :=
  let energyJoules := energy * 1e6 * TNT_ENERGY in
  (2 / 3) * JSMath.log10 energyJoules - 2.9.

(** The three bounding boxes of [isOceanImpact], in the order the source
    tests them.  The source nests the latitude test of the first two
    inside the longitude test; falling out of the inner test continues
    with the next box, which is what the conjunction gives. *)

Definition inPacificBox (lat lon : R) : bool :=
  ((lon >? 120) || (lon <? -70)) && (JSMath.abs lat <? 60).

Definition inAtlanticBox (lat lon : R) : bool :=
  ((lon >? -70) && (lon <? -10)) && (JSMath.abs lat <? 60).

Definition inIndianBox (lat lon : R) : bool :=
  (lon >? 40) && (lon <? 120) && (lat <? 20) && (lat >? -50).

Definition isOceanImpact (lat lon : R) : Rand bool :=
  if inPacificBox lat lon then ret true
  else if inAtlanticBox lat lon then ret true
  else if inIndianBox lat lon then ret true
  else r <- Math_random ;; ret (r <? EARTH_OCEAN_COVERAGE).

Definition calculateTsunamiHeight
    (energy craterDiameter waterDepth : R) : R :=
  let energyFactor := JSMath.pow energy 0.25 in
  let craterFactor := craterDiameter * 1000 in
  let initialHeight := JSMath.min (craterFactor / 10) (waterDepth * 0.5) in
  initialHeight * energyFactor * 0.1.

(** Default value of the [waterDepth] parameter. *)
Definition defaultWaterDepth : R := 4000.

(** The object literal [populationDensities], keyed by region name. *)
Definition populationDensities : list (string * R) :=
  [ ("north_america"%string, 25);
    ("south_america"%string, 23);
    ("europe"%string, 73);
    ("africa"%string, 45);
    ("asia"%string, 150);
    ("oceania"%string, 5);
    ("ocean"%string, 0) ].

Fixpoint lookup (key : string) (table : list (string * R)) : option R :=
  match table with
  | [] => None
  | (k, v) :: table' => if String.eqb key k then Some v else lookup key table'
  end.

(** [table[key] || 0]: a missing key reads as [undefined], which [||]
    replaces by [0]; a stored number is kept ([0] is replaced by [0]). *)
Definition lookupOrZero (key : string) (table : list (string * R)) : R :=
  match lookup key table with
  | Some v => v
  | None => 0
  end.

Definition regionOf (lat lon : R) : string :=
  let region := "ocean"%string in
  if JSMath.abs lat <? 60 then
    if (lon >? -130) && (lon <? -60) && (lat >? 15) then "north_america"
    else if (lon >? -80) && (lon <? -35) && (lat <? 15) then "south_america"
    else if (lon >? -10) && (lon <? 40) && (lat >? 35) then "europe"
    else if (lon >? -20) && (lon <? 50) && (lat <? 35) && (lat >? -35)
      then "africa"
    else if (lon >? 40) && (lon <? 150) then "asia"
    else if (lon >? 110) && (lon <? 180) && (lat <? -10) then "oceania"
    else region
  else region.

Definition estimateAffectedPopulation
    (lat lon shockwaveRadius thermalRadius : R) : R :=
  let region := regionOf lat lon in
  let density := lookupOrZero region populationDensities in
  let affectedArea :=
    JSMath.PI * JSMath.pow_n (JSMath.max shockwaveRadius thermalRadius) 2 in
  JSMath.round (density * affectedArea).

Definition calculateImpact (data : AsteroidData.t) : Rand ImpactResults.t :=
  let mass := calculateMass (AsteroidData.diameter data) in
  let energy := calculateEnergy mass (AsteroidData.velocity data) in
  isOcean <- isOceanImpact (AsteroidData.impactLat data)
                           (AsteroidData.impactLon data) ;;
  let craterDiameter :=
    calculateCraterDiameter energy (AsteroidData.velocity data)
      (AsteroidData.angle data) isOcean in
  let craterDepth := calculateCraterDepth craterDiameter in
  let shockwaveRadius := calculateShockwaveRadius energy in
  let thermalRadius := calculateThermalRadius energy in
  let seismicMagnitude := calculateSeismicMagnitude energy in
  let results :=
    ImpactResults.mk mass energy craterDiameter craterDepth
      shockwaveRadius seismicMagnitude thermalRadius isOcean None
      (estimateAffectedPopulation
         (AsteroidData.impactLat data) (AsteroidData.impactLon data)
         shockwaveRadius thermalRadius) in
  ret (if isOcean
       then ImpactResults.set_tsunamiHeight
              (calculateTsunamiHeight energy craterDiameter defaultWaterDepth)
              results
       else results).

(** ** Mitigation Service *)

Inductive MitigationStrategy : Type :=
  | none
  | kinetic_impactor
  | nuclear_device
  | gravity_tractor
  | ion_beam.

Module MitigationResult.
Record t : Type := mk {
  strategy : MitigationStrategy;
  successProbability : R;
  velocityChange : R;
  trajectoryDeflection : R;
  warningTimeNeeded : R;
  description : string;
  energyReduction : R
}.
End MitigationResult.

Definition calculateKineticImpactor
    (asteroidMass asteroidVelocity warningTime : R) : MitigationResult.t :=
  let spacecraftMass := 500 in
  let spacecraftVelocity := 10000 in
  let beta := 1.5 in
  let velocityChange :=
    beta * (spacecraftMass * spacecraftVelocity) / asteroidMass in
  let timeSeconds := warningTime * 365.25 * 24 * 3600 in
  let trajectoryDeflection := (velocityChange * timeSeconds) / 1000 in
  let successProbability := JSMath.min (warningTime / 5) 0.95 in
  let velocityRatio := velocityChange / (asteroidVelocity * 1000) in
  let energyReduction :=
    (2 * velocityRatio - velocityRatio * velocityRatio) * 100 in
  {| MitigationResult.strategy := kinetic_impactor;
     MitigationResult.successProbability := successProbability;
     MitigationResult.velocityChange := velocityChange;
     MitigationResult.trajectoryDeflection := trajectoryDeflection;
     MitigationResult.warningTimeNeeded := 5;
     MitigationResult.energyReduction := energyReduction;
     MitigationResult.description :=
       "High-speed spacecraft collision to change asteroid momentum. Most viable current technology." |}.

Definition calculateNuclearDevice
    (asteroidMass asteroidDiameter warningTime : R) : MitigationResult.t :=
  let yieldJoules := 4.184e15 in
  let efficiency := 0.1 in
  let asteroidRadius := asteroidDiameter / 2 in
  let surfaceArea := 4 * JSMath.PI * JSMath.pow_n asteroidRadius 2 in
  let impulse := efficiency * yieldJoules / 1000 in
  let velocityChange := impulse / asteroidMass in
  let timeSeconds := warningTime * 365.25 * 24 * 3600 in
  let trajectoryDeflection := (velocityChange * timeSeconds) / 1000 in
  let successProbability := JSMath.min (warningTime / 3) 0.90 in
  let energyReduction := JSMath.min ((velocityChange / 1000) * 50) 15 in
  {| MitigationResult.strategy := nuclear_device;
     MitigationResult.successProbability := successProbability;
     MitigationResult.velocityChange := velocityChange;
     MitigationResult.trajectoryDeflection := trajectoryDeflection;
     MitigationResult.warningTimeNeeded := 3;
     MitigationResult.energyReduction := energyReduction;
     MitigationResult.description :=
       "Nuclear standoff burst to vaporize surface material and create thrust. High-risk, high-reward option." |}.

Definition calculateGravityTractor
    (asteroidMass warningTime : R) : MitigationResult.t :=
  let spacecraftMass := 1000 in
  let G := 6.674e-11 in
  let distance := 100 in
  let force := (G * spacecraftMass * asteroidMass) / JSMath.pow_n distance 2 in
  let acceleration := force / asteroidMass in
  let operatingTime := warningTime * 365.25 * 24 * 3600 in
  let velocityChange := acceleration * operatingTime in
  let trajectoryDeflection := (velocityChange * operatingTime) / 2000 in
  let successProbability := JSMath.min (warningTime / 10) 0.85 in
  let energyReduction := JSMath.min ((velocityChange / 100) * 5) 8 in
  {| MitigationResult.strategy := gravity_tractor;
     MitigationResult.successProbability := successProbability;
     MitigationResult.velocityChange := velocityChange;
     MitigationResult.trajectoryDeflection := trajectoryDeflection;
     MitigationResult.warningTimeNeeded := 10;
     MitigationResult.energyReduction := energyReduction;
     MitigationResult.description :=
       "Spacecraft uses gravitational attraction to slowly pull asteroid off course. Requires very long warning time." |}.

Definition calculateIonBeam
    (asteroidMass asteroidDiameter warningTime : R) : MitigationResult.t :=
  let thrust := 0.5 in
  let efficiency := 0.7 in
  let effectiveThrust := thrust * efficiency in
  let acceleration := effectiveThrust / asteroidMass in
  let operatingTime := warningTime * 365.25 * 24 * 3600 in
  let velocityChange := acceleration * operatingTime in
  let trajectoryDeflection := (velocityChange * operatingTime) / 2000 in
  let successProbability := JSMath.min (warningTime / 8) 0.80 in
  let energyReduction := JSMath.min ((velocityChange / 100) * 6) 10 in
  {| MitigationResult.strategy := ion_beam;
     MitigationResult.successProbability := successProbability;
     MitigationResult.velocityChange := velocityChange;
     MitigationResult.trajectoryDeflection := trajectoryDeflection;
     MitigationResult.warningTimeNeeded := 8;
     MitigationResult.energyReduction := energyReduction;
     MitigationResult.description :=
       "Ion beam directed at asteroid surface to create ablation thrust. Experimental but promising technology." |}.

(** [null] is [None].  The [default] arm of the source's [switch] cannot
    be reached by a value of type [MitigationStrategy]. *)
Definition calculateMitigation
    (strategy : MitigationStrategy)
    (asteroidMass asteroidDiameter asteroidVelocity warningTime : R)
    : option MitigationResult.t :=
  match strategy with
  | none => None
  | kinetic_impactor =>
      Some (calculateKineticImpactor asteroidMass asteroidVelocity warningTime)
  | nuclear_device =>
      Some (calculateNuclearDevice asteroidMass asteroidDiameter warningTime)
  | gravity_tractor =>
      Some (calculateGravityTractor asteroidMass warningTime)
  | ion_beam =>
      Some (calculateIonBeam asteroidMass asteroidDiameter warningTime)
  end.

(** ** The ocean bounding boxes, as the specification words them *)

Definition PacificBox (lat lon : R) : Prop :=
  (lon > 120 \/ lon < -70) /\ Rabs lat < 60.

Definition AtlanticBox (lat lon : R) : Prop :=
  (-70 < lon < -10) /\ Rabs lat < 60.

Definition IndianBox (lat lon : R) : Prop :=
  (40 < lon < 120) /\ (-50 < lat < 20).

Definition OceanBox (lat lon : R) : Prop :=
  PacificBox lat lon \/ AtlanticBox lat lon \/ IndianBox lat lon.

(** ** Sample inputs

    A 500 m body arriving at 20 km/s and 45 degrees over the Pacific at
    (0, 150), and a 500 m body arriving vertically at 20 km/s at (0, 0),
    which no bounding box covers. *)

Definition pacificStrike : AsteroidData.t :=
  AsteroidData.mk 500 20 45 0 150.

Definition originStrike : AsteroidData.t :=
  AsteroidData.mk 500 20 90 0 0.

(** [Math.random] returns numbers in the interval [0, 1). *)
Definition unitDraws (s : RandomSource) : Prop := forall n, 0 <= s n < 1.

(** Two generators: every draw of the first is below the ocean coverage,
    every draw of the second is above it. *)
Definition lowDraws : RandomSource := fun _ => 0.5.
Definition highDraws : RandomSource := fun _ => 0.9.

(** ** The 3D scene: placing the impact point on the globe

    [latLonToCartesian] of [components/OrbitalSimulation.tsx]; a
    [THREE.Vector3] is the record of its three coordinates. *)

Module Vector3.
Record t : Type := mk { x : R; y : R; z : R }.
End Vector3.

Definition latLonToCartesian (lat lon radius : R) : Vector3.t :=
  let phi := (90 - lat) * (JSMath.PI / 180) in
  let theta := (lon + 180) * (JSMath.PI / 180) in
  let x := - (radius * JSMath.sin phi * JSMath.cos theta) in
  let y := radius * JSMath.cos phi in
  let z := radius * JSMath.sin phi * JSMath.sin theta in
  Vector3.mk x y z.

(** ** The application component

    The state of [App] that the simulation reads and writes, the effect
    that recomputes the results when a parameter changes, and the two
    handlers that turn the state into a stored record and a stored
    record back into the state.  The lists shown in the page
    ([asteroids], [recentSimulations]) and [showInfo] play no part in
    these and are left out. *)

Module SimulationRecord.
(** Optional fields are [option]s.  [mitigation_applied] holds the name
    of a strategy, which is what a [MitigationStrategy] is. *)
Record t : Type := mk {
  id : option string;
  name : string;
  diameter_meters : R;
  velocity_km_s : R;
  angle_degrees : R;
  impact_lat : R;
  impact_lon : R;
  mass_kg : option R;
  energy_megatons : option R;
  crater_diameter_km : option R;
  is_ocean_impact : option bool;
  mitigation_applied : option MitigationStrategy;
  created_at : option string;
  user_id : option string
}.
End SimulationRecord.

Module App.

Record State : Type := mkState {
  diameter : R;
  velocity : R;
  angle : R;
  impactLat : R;
  impactLon : R;
  mitigation : MitigationStrategy;
  warningTime : R;
  simulationName : string;
  results : option ImpactResults.t;
  mitigationResults : option MitigationResult.t;
  showHistory : bool
}.

(** The effect that depends on the seven parameters: it stores the impact
    results, and the mitigation results computed from the mass the impact
    calculation returned ([null] when no strategy is selected). *)
Definition recompute (st : State) : Rand State :=
  let asteroidData :=
    AsteroidData.mk (diameter st) (velocity st) (angle st)
                    (impactLat st) (impactLon st) in
  impactResults <- calculateImpact asteroidData ;;
  let mitigationResult :=
    match mitigation st with
    | none => None
    | strategy =>
        calculateMitigation strategy (ImpactResults.mass impactResults)
          (diameter st) (velocity st) (warningTime st)
    end in
  ret (mkState (diameter st) (velocity st) (angle st)
         (impactLat st) (impactLon st) (mitigation st) (warningTime st)
         (simulationName st) (Some impactResults) mitigationResult
         (showHistory st)).

(** The record [handleSaveSimulation] hands to [saveSimulation]; nothing
    is saved while there are no results. *)
Definition recordToSave (st : State) : option SimulationRecord.t :=
  match results st with
  | None => None
  | Some r =>
      Some {| SimulationRecord.id := None;
              SimulationRecord.name := simulationName st;
              SimulationRecord.diameter_meters := diameter st;
              SimulationRecord.velocity_km_s := velocity st;
              SimulationRecord.angle_degrees := angle st;
              SimulationRecord.impact_lat := impactLat st;
              SimulationRecord.impact_lon := impactLon st;
              SimulationRecord.mass_kg := Some (ImpactResults.mass r);
              SimulationRecord.energy_megatons :=
                Some (ImpactResults.energy r);
              SimulationRecord.crater_diameter_km :=
                Some (ImpactResults.craterDiameter r);
              SimulationRecord.is_ocean_impact :=
                Some (ImpactResults.isOceanImpact r);
              SimulationRecord.mitigation_applied :=
                match mitigation st with
                | none => None
                | strategy => Some strategy
                end;
              SimulationRecord.created_at := None;
              SimulationRecord.user_id := None |}
  end.

(** [handleLoadSimulation]: the six setters, the conditional
    [setMitigation], and [setShowHistory(false)]. *)
Definition handleLoadSimulation
    (sim : SimulationRecord.t) (st : State) : State :=
  mkState (SimulationRecord.diameter_meters sim)
          (SimulationRecord.velocity_km_s sim)
          (SimulationRecord.angle_degrees sim)
          (SimulationRecord.impact_lat sim)
          (SimulationRecord.impact_lon sim)
          (match SimulationRecord.mitigation_applied sim with
           | Some strategy => strategy
           | None => mitigation st
           end)
          (warningTime st)
          (SimulationRecord.name sim)
          (results st) (mitigationResults st) false.

(** The values the component's state starts from. *)
Definition initialState : State :=
  mkState 500 20 45 40.7 (-74.0) none 5 "Custom Simulation" None None false.

End App.

(** ** The arithmetic of the services on binary64 numbers

    The functions of the two services that use only [+ - * /],
    comparisons, [Math.abs], [Math.min], [Math.max], [Math.round],
    [Math.PI] and [Math.pow] at the literal exponents 2 and 3, on the
    numbers the program computes with: IEEE 754 binary64, rounded to
    nearest, with infinities, signed zeros and NaN.  A decimal literal
    denotes the nearest binary64 number, as in JavaScript.  They show
    where the program leaves the exact formulas above. *)

Module Binary64.

Local Open Scope float_scope.

Definition Math_PI : float := 0x1.921fb54442d18p+1.

Definition Math_abs (x : float) : float := abs x.

(** [Math.min] and [Math.max]: NaN if an argument is NaN, and [-0] is
    below [+0]. *)
Definition Math_min (x y : float) : float :=
  if is_nan x || is_nan y then nan
  else if x <? y then x
  else if y <? x then y
  else if get_sign x then x else y.

Definition Math_max (x y : float) : float :=
  if is_nan x || is_nan y then nan
  else if x <? y then y
  else if y <? x then x
  else if get_sign x then y else x.

(** [Math.pow(x, 2)] and [Math.pow(x, 3)], as the rounded products.  The
    values used below are [100^2 = 10000], which is exact, and powers
    far beyond the largest binary64 number. *)
Definition Math_pow_2 (x : float) : float := x * x.
Definition Math_pow_3 (x : float) : float := x * x * x.

(** [Math.round]: the integer nearest to [x], halves going up; NaN,
    the infinities and the zeros are returned as they are, and a
    negative [x] that rounds to zero gives [-0].  The number
    [(-1)^s * m * 2^e] with [e < 0] rounds to the floor of
    [(2 n + 2^k) / 2^(k+1)], where [n] is the signed [m] and [k = -e]. *)
Definition Math_round (x : float) : float :=
  match Prim2SF x with
  | S754_finite s m e =>
      if (0 <=? e)%Z then x
      else
        let n := if s then Z.neg m else Z.pos m in
        let k := (- e)%Z in
        let q := ((2 * n + 2 ^ k) / 2 ^ (k + 1))%Z in
        if (q =? 0)%Z then (if s then neg_zero else zero)
        else if (q <? 0)%Z then - of_uint63 (Uint63.of_Z (- q))
        else of_uint63 (Uint63.of_Z q)
  | _ => x
  end.

Definition ASTEROID_DENSITY : float := 3000.

Definition calculateMass (diameter : float) : float :=
  let radius := diameter / 2 in
  let volume := (4 / 3) * Math_PI * Math_pow_3 radius in
  volume * ASTEROID_DENSITY.

Definition populationDensities : list (string * float) :=
  [ ("north_america"%string, 25);
    ("south_america"%string, 23);
    ("europe"%string, 73);
    ("africa"%string, 45);
    ("asia"%string, 150);
    ("oceania"%string, 5);
    ("ocean"%string, 0) ].

Fixpoint lookup (key : string) (table : list (string * float))
    : option float :=
  match table with
  | [] => None
  | (k, v) :: table' => if String.eqb key k then Some v else lookup key table'
  end.

(** [table[key] || 0]: [undefined], [0], [-0] and NaN are falsy. *)
Definition lookupOrZero (key : string) (table : list (string * float))
    : float :=
  match lookup key table with
  | Some v => if is_zero v || is_nan v then 0 else v
  | None => 0
  end.

Definition regionOf (lat lon : float) : string :=
  let region := "ocean"%string in
  if Math_abs lat <? 60 then
    if (-130 <? lon) && (lon <? -60) && (15 <? lat) then "north_america"
    else if (-80 <? lon) && (lon <? -35) && (lat <? 15) then "south_america"
    else if (-10 <? lon) && (lon <? 40) && (35 <? lat) then "europe"
    else if (-20 <? lon) && (lon <? 50) && (lat <? 35) && (-35 <? lat)
      then "africa"
    else if (40 <? lon) && (lon <? 150) then "asia"
    else if (110 <? lon) && (lon <? 180) && (lat <? -10) then "oceania"
    else region
  else region.

Definition estimateAffectedPopulation
    (lat lon shockwaveRadius thermalRadius : float) : float :=
  let region := regionOf lat lon in
  let density := lookupOrZero region populationDensities in
  let affectedArea :=
    Math_PI * Math_pow_2 (Math_max shockwaveRadius thermalRadius) in
  Math_round (density * affectedArea).

Module MitigationResult.
Record t : Type := mk {
  strategy : MitigationStrategy;
  successProbability : float;
  velocityChange : float;
  trajectoryDeflection : float;
  warningTimeNeeded : float;
  description : string;
  energyReduction : float
}.
End MitigationResult.

Definition calculateKineticImpactor
    (asteroidMass asteroidVelocity warningTime : float)
    : MitigationResult.t :=
  let spacecraftMass := 500 in
  let spacecraftVelocity := 10000 in
  let beta := 1.5 in
  let velocityChange :=
    beta * (spacecraftMass * spacecraftVelocity) / asteroidMass in
  let timeSeconds := warningTime * 365.25 * 24 * 3600 in
  let trajectoryDeflection := (velocityChange * timeSeconds) / 1000 in
  let successProbability := Math_min (warningTime / 5) 0.95 in
  let velocityRatio := velocityChange / (asteroidVelocity * 1000) in
  let energyReduction :=
    (2 * velocityRatio - velocityRatio * velocityRatio) * 100 in
  {| MitigationResult.strategy := kinetic_impactor;
     MitigationResult.successProbability := successProbability;
     MitigationResult.velocityChange := velocityChange;
     MitigationResult.trajectoryDeflection := trajectoryDeflection;
     MitigationResult.warningTimeNeeded := 5;
     MitigationResult.energyReduction := energyReduction;
     MitigationResult.description :=
       "High-speed spacecraft collision to change asteroid momentum. Most viable current technology." |}.

Definition calculateGravityTractor
    (asteroidMass warningTime : float) : MitigationResult.t :=
  let spacecraftMass := 1000 in
  let G := 6.674e-11 in
  let distance := 100 in
  let force := (G * spacecraftMass * asteroidMass) / Math_pow_2 distance in
  let acceleration := force / asteroidMass in
  let operatingTime := warningTime * 365.25 * 24 * 3600 in
  let velocityChange := acceleration * operatingTime in
  let trajectoryDeflection := (velocityChange * operatingTime) / 2000 in
  let successProbability := Math_min (warningTime / 10) 0.85 in
  let energyReduction := Math_min ((velocityChange / 100) * 5) 8 in
  {| MitigationResult.strategy := gravity_tractor;
     MitigationResult.successProbability := successProbability;
     MitigationResult.velocityChange := velocityChange;
     MitigationResult.trajectoryDeflection := trajectoryDeflection;
     MitigationResult.warningTimeNeeded := 10;
     MitigationResult.energyReduction := energyReduction;
     MitigationResult.description :=
       "Spacecraft uses gravitational attraction to slowly pull asteroid off course. Requires very long warning time." |}.

Definition calculateNuclearDevice
    (asteroidMass asteroidDiameter warningTime : float)
    : MitigationResult.t :=
  let yieldJoules := 4.184e15 in
  let efficiency := 0.1 in
  let asteroidRadius := asteroidDiameter / 2 in
  let surfaceArea := 4 * Math_PI * Math_pow_2 asteroidRadius in
  let impulse := efficiency * yieldJoules / 1000 in
  let velocityChange := impulse / asteroidMass in
  let timeSeconds := warningTime * 365.25 * 24 * 3600 in
  let trajectoryDeflection := (velocityChange * timeSeconds) / 1000 in
  let successProbability := Math_min (warningTime / 3) 0.90 in
  let energyReduction := Math_min ((velocityChange / 1000) * 50) 15 in
  {| MitigationResult.strategy := nuclear_device;
     MitigationResult.successProbability := successProbability;
     MitigationResult.velocityChange := velocityChange;
     MitigationResult.trajectoryDeflection := trajectoryDeflection;
     MitigationResult.warningTimeNeeded := 3;
     MitigationResult.energyReduction := energyReduction;
     MitigationResult.description :=
       "Nuclear standoff burst to vaporize surface material and create thrust. High-risk, high-reward option." |}.

Definition calculateIonBeam
    (asteroidMass asteroidDiameter warningTime : float)
    : MitigationResult.t :=
  let thrust := 0.5 in
  let efficiency := 0.7 in
  let effectiveThrust := thrust * efficiency in
  let acceleration := effectiveThrust / asteroidMass in
  let operatingTime := warningTime * 365.25 * 24 * 3600 in
  let velocityChange := acceleration * operatingTime in
  let trajectoryDeflection := (velocityChange * operatingTime) / 2000 in
  let successProbability := Math_min (warningTime / 8) 0.80 in
  let energyReduction := Math_min ((velocityChange / 100) * 6) 10 in
  {| MitigationResult.strategy := ion_beam;
     MitigationResult.successProbability := successProbability;
     MitigationResult.velocityChange := velocityChange;
     MitigationResult.trajectoryDeflection := trajectoryDeflection;
     MitigationResult.warningTimeNeeded := 8;
     MitigationResult.energyReduction := energyReduction;
     MitigationResult.description :=
       "Ion beam directed at asteroid surface to create ablation thrust. Experimental but promising technology." |}.

Definition calculateMitigation
    (strategy : MitigationStrategy)
    (asteroidMass asteroidDiameter asteroidVelocity warningTime : float)
    : option MitigationResult.t :=
  match strategy with
  | none => None
  | kinetic_impactor =>
      Some (calculateKineticImpactor asteroidMass asteroidVelocity warningTime)
  | nuclear_device =>
      Some (calculateNuclearDevice asteroidMass asteroidDiameter warningTime)
  | gravity_tractor =>
      Some (calculateGravityTractor asteroidMass warningTime)
  | ion_beam =>
      Some (calculateIonBeam asteroidMass asteroidDiameter warningTime)
  end.

End Binary64.

(** ** Agreement up to rounding

    [closeTo x y]: [x] and [y] differ by at most one part in 10^9 of
    [y].  Two binary64 evaluations of expressions that are equal in
    exact arithmetic differ by a few parts in 10^16 as long as nothing
    overflows or underflows; the statements below that use [closeTo]
    keep their inputs in such a range. *)

Definition closeTo (x y : R) : Prop := Rabs (x - y) <= 1e-9 * Rabs y.

(** * Properties *)

(** ** Auxiliary facts on comparisons and on [JSMath] *)

Lemma closeTo_eq (x y : R) : x = y -> closeTo x y.
Proof.
  intros ->. unfold closeTo.
  replace (y - y) with 0 by ring. rewrite Rabs_R0.
  assert (H := Rabs_pos y). lra.
Qed.

Lemma Rltb_true (x y : R) : x < y -> (x <? y) = true.
Proof. intros H. unfold Rltb. destruct (Rlt_dec x y); [reflexivity | contradiction]. Qed.

Lemma Rltb_false (x y : R) : ~ x < y -> (x <? y) = false.
Proof. intros H. unfold Rltb. destruct (Rlt_dec x y); [contradiction | reflexivity]. Qed.

Lemma Rgtb_true (x y : R) : y < x -> (x >? y) = true.
Proof. apply Rltb_true. Qed.

Lemma Rgtb_false (x y : R) : ~ y < x -> (x >? y) = false.
Proof. apply Rltb_false. Qed.

(** Settles every comparison of the goal that linear arithmetic over the
    hypotheses decides. *)
Ltac decide_comparisons :=
  repeat match goal with
    | |- context [?a <? ?b] =>
        first [ rewrite (Rltb_true a b) by lra
              | rewrite (Rltb_false a b) by lra ]
    | |- context [?a >? ?b] =>
        first [ rewrite (Rgtb_true a b) by lra
              | rewrite (Rgtb_false a b) by lra ]
    end.

Lemma round_0 : JSMath.round 0 = 0.
Proof.
  unfold JSMath.round.
  replace (Int_part (0 + 0.5)) with 0%Z; [reflexivity |].
  apply Int_part_spec. simpl. lra.
Qed.

Lemma Math_pow_pos (x y : R) : 0 < x -> 0 < JSMath.pow x y.
Proof.
  intros Hx. unfold JSMath.pow.
  destruct (Rlt_dec 0 x); [| contradiction].
  unfold Rpower. apply exp_pos.
Qed.

Lemma Math_pow_lt (a b y : R) : 0 < y -> 0 < a < b -> JSMath.pow a y < JSMath.pow b y.
Proof.
  intros Hy [Ha Hab]. unfold JSMath.pow.
  destruct (Rlt_dec 0 a); [| contradiction].
  destruct (Rlt_dec 0 b); [| lra].
  apply Rlt_Rpower_l; lra.
Qed.

(** Unfolding of a run of [calculateImpact]: the only step that touches
    the random source is the ocean determination. *)
Lemma calculateImpact_run (data : AsteroidData.t) (s : RandomSource) :
  let mass := calculateMass (AsteroidData.diameter data) in
  let energy := calculateEnergy mass (AsteroidData.velocity data) in
  let isOcean :=
    eval (isOceanImpact (AsteroidData.impactLat data)
                        (AsteroidData.impactLon data)) s in
  let craterDiameter :=
    calculateCraterDiameter energy (AsteroidData.velocity data)
      (AsteroidData.angle data) isOcean in
  eval (calculateImpact data) s =
    ImpactResults.mk mass energy craterDiameter
      (calculateCraterDepth craterDiameter)
      (calculateShockwaveRadius energy)
      (calculateSeismicMagnitude energy)
      (calculateThermalRadius energy)
      isOcean
      (if isOcean
       then Some (calculateTsunamiHeight energy craterDiameter defaultWaterDepth)
       else None)
      (estimateAffectedPopulation
         (AsteroidData.impactLat data) (AsteroidData.impactLon data)
         (calculateShockwaveRadius energy) (calculateThermalRadius energy)).
Proof.
  unfold eval, calculateImpact, bind.
  destruct (isOceanImpact (AsteroidData.impactLat data)
                          (AsteroidData.impactLon data) s) as [b s'].
  destruct b; reflexivity.
Qed.

Lemma isOceanImpact_in_box (lat lon : R) (s : RandomSource) :
  OceanBox lat lon -> isOceanImpact lat lon s = (true, s).
Proof.
  unfold OceanBox, PacificBox, AtlanticBox, IndianBox, isOceanImpact.
  intros [[Hlon Hlat] | [[Hlon Hlat] | [Hlon Hlat]]].
  - replace (inPacificBox lat lon) with true; [reflexivity |].
    unfold inPacificBox, JSMath.abs. rewrite (Rltb_true _ _ Hlat).
    destruct Hlon; decide_comparisons;
      rewrite ?orb_true_r; reflexivity.
  - destruct (inPacificBox lat lon); [reflexivity |].
    replace (inAtlanticBox lat lon) with true; [reflexivity |].
    unfold inAtlanticBox, JSMath.abs. rewrite (Rltb_true _ _ Hlat).
    decide_comparisons. reflexivity.
  - destruct (inPacificBox lat lon); [reflexivity |].
    destruct (inAtlanticBox lat lon); [reflexivity |].
    replace (inIndianBox lat lon) with true; [reflexivity |].
    unfold inIndianBox. decide_comparisons. reflexivity.
Qed.

Lemma isOceanImpact_outside (lat lon : R) (s : RandomSource) :
  inPacificBox lat lon = false ->
  inAtlanticBox lat lon = false ->
  inIndianBox lat lon = false ->
  isOceanImpact lat lon s = (s 0%nat <? EARTH_OCEAN_COVERAGE, rest s).
Proof.
  intros HP HA HI. unfold isOceanImpact. rewrite HP, HA, HI. reflexivity.
Qed.

Lemma origin_outside_boxes :
  inPacificBox 0 0 = false /\ inAtlanticBox 0 0 = false
  /\ inIndianBox 0 0 = false.
Proof.
  unfold inPacificBox, inAtlanticBox, inIndianBox.
  decide_comparisons. repeat split; reflexivity.
Qed.

(** ** Ocean determination *)

(** C6.  Inside any of the three ocean bounding boxes (Pacific, Atlantic,
    Indian, worded as in the specification) [isOceanImpact] answers
    [true] and leaves the random source untouched; so it does at
    (0, 150) on every source.  The point (0, 0) lies in none of the
    boxes: there the function takes one draw and answers whether that
    draw is below the ocean coverage. *)
Theorem isOceanImpact_boxes_deterministic :
  (forall lat lon s, OceanBox lat lon -> isOceanImpact lat lon s = (true, s))
  /\ (forall s, isOceanImpact 0 150 s = (true, s))
  /\ ~ OceanBox 0 0
  /\ (forall s,
        isOceanImpact 0 0 s = (s 0%nat <? EARTH_OCEAN_COVERAGE, rest s)).
Proof.
  split; [| split; [| split]].
  - intros lat lon s H. now apply isOceanImpact_in_box.
  - intros s. apply isOceanImpact_in_box.
    left. split; [left; lra |]. rewrite Rabs_R0. lra.
  - unfold OceanBox, PacificBox, AtlanticBox, IndianBox.
    intros [[[H | H] _] | [[H _] | [H _]]]; lra.
  - intros s.
    destruct origin_outside_boxes as (HP & HA & HI).
    now apply isOceanImpact_outside.
Qed.

Lemma isOceanImpact_boxes_deterministic_witness :
  OceanBox (-30) 80
  /\ isOceanImpact (-30) 80 highDraws = (true, highDraws).
Proof.
  assert (H : OceanBox (-30) 80).
  { right; right. unfold IndianBox. lra. }
  split; [exact H |].
  exact (proj1 isOceanImpact_boxes_deterministic (-30) 80 highDraws H).
Defined.

(** ** Shape of the impact results *)

(** C7.  The result of [calculateImpact] carries a tsunami height exactly
    when its ocean flag is set. *)
Theorem tsunamiHeight_present_iff_ocean :
  forall (data : AsteroidData.t) (s : RandomSource),
    let r := eval (calculateImpact data) s in
    (exists h, ImpactResults.tsunamiHeight r = Some h)
    <-> ImpactResults.isOceanImpact r = true.
Proof.
  intros data s r. subst r. rewrite calculateImpact_run. cbn.
  destruct (eval (isOceanImpact _ _) s); split.
  - reflexivity.
  - intros _. eexists. reflexivity.
  - intros [h Hh]. discriminate.
  - discriminate.
Qed.

(** C8.  [calculateCraterDepth d] is [d / 4], and in every result of
    [calculateImpact] the crater depth is the crater diameter over 4. *)
Theorem craterDepth_is_quarter_diameter :
  (forall d, calculateCraterDepth d = d / 4)
  /\ (forall (data : AsteroidData.t) (s : RandomSource),
        let r := eval (calculateImpact data) s in
        ImpactResults.craterDepth r = ImpactResults.craterDiameter r / 4).
Proof.
  split.
  - reflexivity.
  - intros data s r. subst r. rewrite calculateImpact_run. reflexivity.
Qed.

(** ** Affected population *)

Lemma regionOf_polar (lat lon : R) :
  60 <= JSMath.abs lat -> regionOf lat lon = "ocean"%string.
Proof.
  intros H. unfold regionOf. rewrite Rltb_false by lra. reflexivity.
Qed.

(** C10 (amended).  At latitudes with [|lat| >= 60] the region stays
    ["ocean"] and its density is 0; for shockwave and thermal radii
    between -1e150 and 1e150, whose squares are finite numbers, the
    affected population is 0, whatever the longitude. *)
Theorem estimateAffectedPopulation_polar :
  forall lat lon shockwaveRadius thermalRadius,
    60 <= Rabs lat ->
    -1e150 <= shockwaveRadius <= 1e150 ->
    -1e150 <= thermalRadius <= 1e150 ->
    regionOf lat lon = "ocean"%string
    /\ lookupOrZero (regionOf lat lon) populationDensities = 0
    /\ estimateAffectedPopulation lat lon shockwaveRadius thermalRadius = 0.
Proof.
  intros lat lon sw th H _ _.
  assert (Hr : regionOf lat lon = "ocean"%string) by now apply regionOf_polar.
  split; [exact Hr |].
  unfold estimateAffectedPopulation. rewrite Hr.
  assert (Hd : lookupOrZero "ocean" populationDensities = 0) by reflexivity.
  split; [exact Hd |].
  rewrite Hd, Rmult_0_l. apply round_0.
Qed.

Lemma estimateAffectedPopulation_polar_witness :
  60 <= Rabs 75 /\ estimateAffectedPopulation 75 100 52 137 = 0.
Proof.
  assert (H : 60 <= Rabs 75) by (rewrite Rabs_pos_eq; lra).
  split; [exact H |].
  refine (proj2 (proj2 (estimateAffectedPopulation_polar 75 100 52 137 H _ _)));
    lra.
Defined.

(** C10 as stated fails.  On binary64 numbers a radius of 1e200 squares
    to infinity, and 0 times infinity is NaN: at latitude 75 the region
    is still ["ocean"], but the population returned is NaN, not 0. *)
Lemma polar_population_nan_on_overflow :
  Binary64.regionOf 75 100 = "ocean"%string
  /\ Binary64.Math_pow_2 (Binary64.Math_max 1e200 1) = infinity
  /\ is_nan (Binary64.estimateAffectedPopulation 75 100 1e200 1) = true
  /\ (Binary64.estimateAffectedPopulation 75 100 1e200 1 =? 0)%float = false.
Proof. vm_compute. repeat split. Qed.

(** ** Mitigation *)

(** C3.  [calculateMitigation] returns no result for the strategy [none]
    and for no other: each of the four concrete strategies yields a
    result, which carries that strategy. *)
Theorem calculateMitigation_absent_iff_none :
  forall mass diameter velocity warningTime,
    calculateMitigation none mass diameter velocity warningTime = None
    /\ (forall strategy,
          calculateMitigation strategy mass diameter velocity warningTime
            = None <-> strategy = none)
    /\ (forall strategy,
          In strategy
             [kinetic_impactor; nuclear_device; gravity_tractor; ion_beam] ->
          exists r,
            calculateMitigation strategy mass diameter velocity warningTime
              = Some r
            /\ MitigationResult.strategy r = strategy).
Proof.
  intros m d v w. split; [reflexivity | split].
  - intros [] ; split; intros H; try reflexivity; discriminate.
  - intros strategy [<- | [<- | [<- | [<- | []]]]];
      eexists; split; reflexivity.
Qed.

Lemma calculateMitigation_absent_iff_none_witness :
  In ion_beam [kinetic_impactor; nuclear_device; gravity_tractor; ion_beam]
  /\ exists r,
       calculateMitigation ion_beam 1.9e11 500 20 10 = Some r
       /\ MitigationResult.strategy r = ion_beam.
Proof.
  assert (H : In ion_beam
                [kinetic_impactor; nuclear_device; gravity_tractor; ion_beam])
    by (simpl; auto).
  split; [exact H |].
  exact (proj2 (proj2 (calculateMitigation_absent_iff_none 1.9e11 500 20 10))
           ion_beam H).
Defined.

(** C5.  The kinetic impactor's success probability is
    [min (warningTime / 5) 0.95]; it never exceeds 0.95, and it is 0.95
    for a warning time of 100 years. *)
Theorem kinetic_impactor_successProbability :
  forall mass diameter velocity warningTime,
    exists r,
      calculateMitigation kinetic_impactor mass diameter velocity warningTime
        = Some r
      /\ MitigationResult.successProbability r = Rmin (warningTime / 5) 0.95
      /\ MitigationResult.successProbability r <= 0.95
      /\ (warningTime = 100 -> MitigationResult.successProbability r = 0.95).
Proof.
  intros m d v w. eexists. split; [reflexivity |]. cbn. unfold JSMath.min.
  split; [reflexivity | split].
  - apply Rmin_r.
  - intros ->. apply Rmin_right. lra.
Qed.

Lemma kinetic_impactor_successProbability_witness :
  exists r,
    calculateMitigation kinetic_impactor 1.9e11 500 20 100 = Some r
    /\ MitigationResult.successProbability r = 0.95.
Proof.
  destruct (kinetic_impactor_successProbability 1.9e11 500 20 100)
    as (r & Hr & _ & _ & H100).
  exists r. split; [exact Hr | exact (H100 eq_refl)].
Defined.

(** In exact arithmetic the mass cancels in the gravity tractor's
    acceleration. *)
Lemma gravity_tractor_acceleration (m : R) :
  0 < m ->
  (6.674e-11 * 1000 * m) / JSMath.pow_n 100 2 / m
  = 6.674e-11 * 1000 / 100 ^ 2.
Proof. intros Hm. unfold JSMath.pow_n. field. lra. Qed.

(** C9 (amended).  For two asteroid masses between 1e-6 and 1e30 kg and a
    warning time between 0.001 and 1e6 years, the two gravity-tractor
    results carry the same strategy, success probability, needed
    warning time and description, and their velocity change, trajectory
    deflection and energy reduction agree up to rounding: the mass
    cancels in the exact formulas, and the velocity change is
    [G * 1000 / 100^2] times the operating time. *)
Theorem gravity_tractor_mass_independent :
  forall warningTime diameter velocity m1 m2,
    1e-6 <= m1 <= 1e30 -> 1e-6 <= m2 <= 1e30 ->
    1e-3 <= warningTime <= 1e6 ->
    exists r1 r2,
      calculateMitigation gravity_tractor m1 diameter velocity warningTime
        = Some r1
      /\ calculateMitigation gravity_tractor m2 diameter velocity warningTime
          = Some r2
      /\ MitigationResult.strategy r1 = MitigationResult.strategy r2
      /\ MitigationResult.successProbability r1
          = MitigationResult.successProbability r2
      /\ MitigationResult.warningTimeNeeded r1
          = MitigationResult.warningTimeNeeded r2
      /\ MitigationResult.description r1 = MitigationResult.description r2
      /\ closeTo (MitigationResult.velocityChange r1)
                 (MitigationResult.velocityChange r2)
      /\ closeTo (MitigationResult.trajectoryDeflection r1)
                 (MitigationResult.trajectoryDeflection r2)
      /\ closeTo (MitigationResult.energyReduction r1)
                 (MitigationResult.energyReduction r2)
      /\ closeTo (MitigationResult.velocityChange r1)
                 (6.674e-11 * 1000 / 100 ^ 2
                  * (warningTime * 365.25 * 24 * 3600)).
Proof.
  intros w d v m1 m2 H1 H2 Hw.
  assert (Hm1 : 0 < m1) by lra. assert (Hm2 : 0 < m2) by lra.
  do 2 eexists. split; [reflexivity |]. split; [reflexivity |].
  cbv beta iota zeta
    delta [calculateGravityTractor MitigationResult.strategy
           MitigationResult.successProbability
           MitigationResult.warningTimeNeeded MitigationResult.description
           MitigationResult.velocityChange
           MitigationResult.trajectoryDeflection
           MitigationResult.energyReduction].
  rewrite (gravity_tractor_acceleration m1 Hm1),
          (gravity_tractor_acceleration m2 Hm2).
  repeat split; apply closeTo_eq; reflexivity.
Qed.

Lemma gravity_tractor_mass_independent_witness :
  exists r1 r2,
    calculateMitigation gravity_tractor 1.9e11 500 20 10 = Some r1
    /\ calculateMitigation gravity_tractor 4.0e6 500 20 10 = Some r2
    /\ closeTo (MitigationResult.velocityChange r1)
               (MitigationResult.velocityChange r2).
Proof.
  destruct (gravity_tractor_mass_independent 10 500 20 1.9e11 4.0e6)
    as (r1 & r2 & Hr1 & Hr2 & _ & _ & _ & _ & Hv & _); try lra.
  exists r1, r2. split; [exact Hr1 |]. split; [exact Hr2 | exact Hv].
Defined.

(** C9 as stated fails.  On binary64 numbers the product
    [G * 1000 * m] and the two quotients round differently for
    different masses: for 1.9e11 kg and 4.0e6 kg, ten years of warning
    give velocity changes that differ in the last place. *)
Lemma gravity_tractor_rounding_depends_on_mass :
  exists r1 r2,
    Binary64.calculateMitigation gravity_tractor 1.9e11 500 20 10 = Some r1
    /\ Binary64.calculateMitigation gravity_tractor 4.0e6 500 20 10 = Some r2
    /\ Binary64.MitigationResult.velocityChange r1
        = 0.0021061542239999994%float
    /\ Binary64.MitigationResult.velocityChange r2
        = 0.0021061542239999998%float
    /\ (Binary64.MitigationResult.velocityChange r1
         =? Binary64.MitigationResult.velocityChange r2)%float = false.
Proof.
  do 2 eexists. split; [reflexivity |]. split; [reflexivity |].
  vm_compute. repeat split.
Qed.

(** ** Sign and growth of the impact formulas *)

Lemma PI_pos : 0 < JSMath.PI.
Proof. exact PI_RGT_0. Qed.

Lemma cube_lt (a b : R) : 0 < a < b -> JSMath.pow_n a 3 < JSMath.pow_n b 3.
Proof.
  intros [Ha Hab]. unfold JSMath.pow_n. simpl.
  assert (H2 : a * a < b * b) by nra.
  nra.
Qed.

Lemma calculateMass_pos (d : R) : 0 < d -> 0 < calculateMass d.
Proof.
  intros Hd. unfold calculateMass, ASTEROID_DENSITY, JSMath.pow_n.
  assert (HPI := PI_pos).
  assert (Hc : 0 < (d / 2) ^ 3) by (apply pow_lt; lra).
  assert (H1 : 0 < 4 / 3 * JSMath.PI) by lra.
  assert (H2 : 0 < 4 / 3 * JSMath.PI * (d / 2) ^ 3)
    by (apply Rmult_lt_0_compat; assumption).
  lra.
Qed.

Lemma calculateMass_increasing (d1 d2 : R) :
  0 < d1 < d2 -> calculateMass d1 < calculateMass d2.
Proof.
  intros [H1 H12]. unfold calculateMass, ASTEROID_DENSITY.
  assert (HPI := PI_pos).
  assert (Hc : JSMath.pow_n (d1 / 2) 3 < JSMath.pow_n (d2 / 2) 3)
    by (apply cube_lt; lra).
  apply Rmult_lt_compat_r; [lra |].
  apply Rmult_lt_compat_l; [lra | exact Hc].
Qed.

(** The energy is the mass times a factor that is positive as soon as the
    velocity is. *)
Lemma calculateEnergy_linear (m v : R) :
  calculateEnergy m v = m * (0.5 * (v * 1000) ^ 2 / TNT_ENERGY / 1000).
Proof. unfold calculateEnergy, JSMath.pow_n, TNT_ENERGY. field. lra. Qed.

Lemma energy_factor_pos (v : R) :
  0 < v -> 0 < 0.5 * (v * 1000) ^ 2 / TNT_ENERGY / 1000.
Proof.
  intros Hv. unfold TNT_ENERGY.
  assert (H : 0 < (v * 1000) ^ 2) by (apply pow_lt; lra).
  apply Rdiv_lt_0_compat; [| lra].
  apply Rdiv_lt_0_compat; lra.
Qed.

Lemma calculateEnergy_pos (m v : R) :
  0 < m -> 0 < v -> 0 < calculateEnergy m v.
Proof.
  intros Hm Hv. rewrite calculateEnergy_linear.
  apply Rmult_lt_0_compat; [exact Hm | now apply energy_factor_pos].
Qed.

Lemma calculateEnergy_increasing (m1 m2 v : R) :
  0 < v -> m1 < m2 -> calculateEnergy m1 v < calculateEnergy m2 v.
Proof.
  intros Hv Hm. rewrite !calculateEnergy_linear.
  apply Rmult_lt_compat_r; [now apply energy_factor_pos | exact Hm].
Qed.

Lemma sin_angle_pos (angle : R) :
  0 < angle <= 90 -> 0 < JSMath.sin ((angle * JSMath.PI) / 180).
Proof.
  intros [H0 H90]. assert (HPI := PI_pos). unfold JSMath.sin, JSMath.PI in *.
  apply sin_gt_0; nra.
Qed.

Lemma terrainFactor_pos (isOcean : bool) :
  0 < (if isOcean then 0.8 else 1.0).
Proof. destruct isOcean; lra. Qed.

Lemma joules_pos (e : R) : 0 < e -> 0 < e * 1e6 * TNT_ENERGY.
Proof. intros He. unfold TNT_ENERGY. nra. Qed.

Lemma calculateCraterDiameter_pos (e v angle : R) (isOcean : bool) :
  0 < e -> 0 < angle <= 90 ->
  0 < calculateCraterDiameter e v angle isOcean.
Proof.
  intros He Ha. unfold calculateCraterDiameter.
  assert (H1 := Math_pow_pos _ 0.22 (joules_pos e He)).
  assert (H2 := Math_pow_pos _ (1 / 3) (sin_angle_pos angle Ha)).
  assert (H3 := terrainFactor_pos isOcean).
  apply Rdiv_lt_0_compat; [| lra].
  apply Rmult_lt_0_compat; [| exact H3].
  apply Rmult_lt_0_compat; [| exact H2].
  apply Rmult_lt_0_compat; [lra | exact H1].
Qed.

Lemma calculateCraterDiameter_increasing (e1 e2 v angle : R) (isOcean : bool) :
  0 < e1 < e2 -> 0 < angle <= 90 ->
  calculateCraterDiameter e1 v angle isOcean
  < calculateCraterDiameter e2 v angle isOcean.
Proof.
  intros [He1 He12] Ha. unfold calculateCraterDiameter.
  assert (HJ : JSMath.pow (e1 * 1e6 * TNT_ENERGY) 0.22
               < JSMath.pow (e2 * 1e6 * TNT_ENERGY) 0.22).
  { apply Math_pow_lt; [lra |]. split; [now apply joules_pos |].
    unfold TNT_ENERGY. nra. }
  assert (H2 := Math_pow_pos _ (1 / 3) (sin_angle_pos angle Ha)).
  assert (H3 := terrainFactor_pos isOcean).
  apply Rmult_lt_compat_r; [lra |].
  apply Rmult_lt_compat_r; [exact H3 |].
  apply Rmult_lt_compat_r; [exact H2 |].
  apply Rmult_lt_compat_l; [lra | exact HJ].
Qed.

(** An ocean crater is the land crater of the same impact scaled by the
    terrain factor 0.8. *)
Lemma calculateCraterDiameter_ocean (e v angle : R) :
  calculateCraterDiameter e v angle true
  = 0.8 * calculateCraterDiameter e v angle false.
Proof.
  unfold calculateCraterDiameter. cbv beta iota zeta.
  generalize (JSMath.pow (e * 1e6 * TNT_ENERGY) 0.22)
             (JSMath.pow (JSMath.sin (angle * JSMath.PI / 180)) (1 / 3)).
  intros a b. lra.
Qed.

Lemma calculateShockwaveRadius_increasing (e1 e2 : R) :
  0 < e1 < e2 -> calculateShockwaveRadius e1 < calculateShockwaveRadius e2.
Proof.
  intros H. unfold calculateShockwaveRadius.
  apply Rmult_lt_compat_r; [lra | apply Math_pow_lt; [lra | exact H]].
Qed.

Lemma calculateThermalRadius_increasing (e1 e2 : R) :
  0 < e1 < e2 -> calculateThermalRadius e1 < calculateThermalRadius e2.
Proof.
  intros H. unfold calculateThermalRadius.
  apply Rmult_lt_compat_r; [lra | apply Math_pow_lt; [lra | exact H]].
Qed.

(** ** Reproducibility and monotonicity of [calculateImpact] *)

(** C1 (amended).  Two runs of [calculateImpact] on the same input, on any
    two random sources, agree on mass, energy, shockwave radius, thermal
    radius, seismic magnitude and affected population.  They agree on the
    whole result, crater diameter included, as soon as they agree on the
    ocean flag, which they do whenever the coordinates lie in one of the
    three ocean bounding boxes. *)
Theorem calculateImpact_reproducible :
  forall (data : AsteroidData.t) (s1 s2 : RandomSource),
    let r1 := eval (calculateImpact data) s1 in
    let r2 := eval (calculateImpact data) s2 in
    (ImpactResults.mass r1 = ImpactResults.mass r2
     /\ ImpactResults.energy r1 = ImpactResults.energy r2
     /\ ImpactResults.shockwaveRadius r1 = ImpactResults.shockwaveRadius r2
     /\ ImpactResults.thermalRadius r1 = ImpactResults.thermalRadius r2
     /\ ImpactResults.seismicMagnitude r1 = ImpactResults.seismicMagnitude r2
     /\ ImpactResults.affectedPopulation r1
        = ImpactResults.affectedPopulation r2)
    /\ (ImpactResults.isOceanImpact r1 = ImpactResults.isOceanImpact r2 ->
        r1 = r2)
    /\ (OceanBox (AsteroidData.impactLat data) (AsteroidData.impactLon data) ->
        r1 = r2).
Proof.
  intros data s1 s2 r1 r2. subst r1 r2.
  rewrite !calculateImpact_run. cbn.
  split; [repeat split |]. split.
  - intros ->. reflexivity.
  - intros Hbox. unfold eval.
    rewrite !(isOceanImpact_in_box _ _ _ Hbox). reflexivity.
Qed.

Lemma calculateImpact_reproducible_witness :
  OceanBox (AsteroidData.impactLat pacificStrike)
           (AsteroidData.impactLon pacificStrike)
  /\ eval (calculateImpact pacificStrike) lowDraws
     = eval (calculateImpact pacificStrike) highDraws.
Proof.
  assert (H : OceanBox (AsteroidData.impactLat pacificStrike)
                       (AsteroidData.impactLon pacificStrike)).
  { left. split; [left; simpl; lra |]. simpl. rewrite Rabs_R0. lra. }
  split; [exact H |].
  exact (proj2 (proj2 (calculateImpact_reproducible
                         pacificStrike lowDraws highDraws)) H).
Defined.

(** C1 as stated fails.  At (0, 0) the ocean flag follows the draw, and
    the crater diameter follows the flag through the terrain factor: a
    draw of 0.5 gives an ocean impact, a draw of 0.9 a land impact, and
    the two crater diameters differ. *)
Lemma craterDiameter_depends_on_draw :
  let r1 := eval (calculateImpact originStrike) lowDraws in
  let r2 := eval (calculateImpact originStrike) highDraws in
  unitDraws lowDraws /\ unitDraws highDraws
  /\ ImpactResults.isOceanImpact r1 = true
  /\ ImpactResults.isOceanImpact r2 = false
  /\ ImpactResults.craterDiameter r1 = 0.8 * ImpactResults.craterDiameter r2
  /\ ImpactResults.craterDiameter r1 <> ImpactResults.craterDiameter r2.
Proof.
  intros r1 r2. subst r1 r2.
  split; [intros n; unfold lowDraws; lra |].
  split; [intros n; unfold highDraws; lra |].
  rewrite !calculateImpact_run.
  destruct origin_outside_boxes as (HP & HA & HI).
  assert (H1 : eval (isOceanImpact 0 0) lowDraws = true).
  { unfold eval. rewrite (isOceanImpact_outside 0 0 _ HP HA HI).
    unfold lowDraws, EARTH_OCEAN_COVERAGE. simpl. apply Rltb_true. lra. }
  assert (H2 : eval (isOceanImpact 0 0) highDraws = false).
  { unfold eval. rewrite (isOceanImpact_outside 0 0 _ HP HA HI).
    unfold highDraws, EARTH_OCEAN_COVERAGE. simpl. apply Rltb_false. lra. }
  cbn [ImpactResults.isOceanImpact ImpactResults.craterDiameter
       originStrike AsteroidData.diameter AsteroidData.velocity
       AsteroidData.angle AsteroidData.impactLat AsteroidData.impactLon].
  rewrite H1, H2.
  assert (Hpos : 0 < calculateCraterDiameter
                       (calculateEnergy (calculateMass 500) 20) 20 90 false).
  { apply calculateCraterDiameter_pos; [| lra].
    apply calculateEnergy_pos; [apply calculateMass_pos |]; lra. }
  repeat split.
  - apply calculateCraterDiameter_ocean.
  - rewrite calculateCraterDiameter_ocean. lra.
Qed.

(** C2 (amended).  With a velocity between 0.001 and 1000 km/s, an angle
    between 0.001 and 90 degrees, the coordinates fixed and the same
    ocean determination in both runs, and two diameters between 0.001 m
    and 1e9 m of which the second exceeds the first by at least one
    part in a million, the larger diameter gives a strictly larger mass,
    energy, crater diameter, shockwave radius and thermal radius. *)
Theorem impact_outputs_increase_with_diameter :
  forall (velocity angle lat lon d1 d2 : R) (s1 s2 : RandomSource),
    let r1 :=
      eval (calculateImpact (AsteroidData.mk d1 velocity angle lat lon)) s1 in
    let r2 :=
      eval (calculateImpact (AsteroidData.mk d2 velocity angle lat lon)) s2 in
    1e-3 <= velocity <= 1e3 -> 1e-3 <= angle <= 90 ->
    1e-3 <= d1 -> d1 * (1 + 1e-6) <= d2 -> d2 <= 1e9 ->
    ImpactResults.isOceanImpact r1 = ImpactResults.isOceanImpact r2 ->
    ImpactResults.mass r1 < ImpactResults.mass r2
    /\ ImpactResults.energy r1 < ImpactResults.energy r2
    /\ ImpactResults.craterDiameter r1 < ImpactResults.craterDiameter r2
    /\ ImpactResults.shockwaveRadius r1 < ImpactResults.shockwaveRadius r2
    /\ ImpactResults.thermalRadius r1 < ImpactResults.thermalRadius r2.
Proof.
  intros v angle lat lon d1 d2 s1 s2 r1 r2 Hvr Har Hd1 Hgap Hd2. subst r1 r2.
  assert (Hv : 0 < v) by lra.
  assert (Ha : 0 < angle <= 90) by lra.
  assert (Hd : 0 < d1 < d2) by lra.
  rewrite !calculateImpact_run. cbn. intros Hocean.
  assert (Hm : calculateMass d1 < calculateMass d2)
    by now apply calculateMass_increasing.
  assert (Hm1 : 0 < calculateMass d1) by (apply calculateMass_pos; lra).
  assert (He : 0 < calculateEnergy (calculateMass d1) v
                 < calculateEnergy (calculateMass d2) v).
  { split; [now apply calculateEnergy_pos
           | now apply calculateEnergy_increasing]. }
  split; [exact Hm |]. split; [apply He |]. split; [| split].
  - rewrite Hocean. now apply calculateCraterDiameter_increasing.
  - now apply calculateShockwaveRadius_increasing.
  - now apply calculateThermalRadius_increasing.
Qed.

Lemma impact_outputs_increase_with_diameter_witness :
  let r1 := eval (calculateImpact (AsteroidData.mk 100 20 45 0 150)) lowDraws in
  let r2 := eval (calculateImpact (AsteroidData.mk 500 20 45 0 150)) highDraws in
  ImpactResults.mass r1 < ImpactResults.mass r2
  /\ ImpactResults.energy r1 < ImpactResults.energy r2
  /\ ImpactResults.craterDiameter r1 < ImpactResults.craterDiameter r2
  /\ ImpactResults.shockwaveRadius r1 < ImpactResults.shockwaveRadius r2
  /\ ImpactResults.thermalRadius r1 < ImpactResults.thermalRadius r2.
Proof.
  apply (impact_outputs_increase_with_diameter 20 45 0 150 100 500
           lowDraws highDraws); try lra.
  assert (H : OceanBox 0 150).
  { left. split; [left; lra |]. rewrite Rabs_R0. lra. }
  rewrite !calculateImpact_run. cbn. unfold eval.
  rewrite !(isOceanImpact_in_box _ _ _ H). reflexivity.
Defined.

(** C2 as stated fails.  On binary64 numbers the cube of the radius
    overflows for diameters of 1e104 m and 2e104 m: both masses are
    infinity, and the first is not smaller than the second.  At the
    other end the masses of 1e-110 m and 2e-110 m both underflow to 0. *)
Lemma mass_ties_on_overflow :
  (1e104 <? 2e104)%float = true
  /\ Binary64.calculateMass 1e104 = infinity
  /\ Binary64.calculateMass 2e104 = infinity
  /\ (Binary64.calculateMass 1e104 <? Binary64.calculateMass 2e104)%float
     = false
  /\ (Binary64.calculateMass 1e-110 <? Binary64.calculateMass 2e-110)%float
     = false.
Proof. vm_compute. repeat split. Qed.

(** ** Energy reduction of the mitigation strategies *)

Lemma min_cap_bounds (x cap : R) :
  0 <= x -> 0 <= cap <= 100 -> 0 <= JSMath.min x cap <= 100.
Proof.
  intros Hx [Hc0 Hc]. unfold JSMath.min. split.
  - apply Rmin_glb; assumption.
  - apply Rle_trans with cap; [apply Rmin_r | exact Hc].
Qed.

Lemma quotient_nonneg (a b : R) : 0 <= a -> 0 < b -> 0 <= a / b.
Proof.
  intros Ha Hb. unfold Rdiv.
  apply Rmult_le_pos; [exact Ha |].
  left. now apply Rinv_0_lt_compat.
Qed.

Lemma seconds_nonneg (warningTime : R) :
  0 <= warningTime -> 0 <= warningTime * 365.25 * 24 * 3600.
Proof. intros H. lra. Qed.

Lemma nuclear_energyReduction_bounds (m d w : R) :
  0 < m ->
  0 <= MitigationResult.energyReduction (calculateNuclearDevice m d w) <= 100.
Proof.
  intros Hm. unfold calculateNuclearDevice. cbn.
  apply min_cap_bounds; [| lra].
  assert (H : 0 <= 0.1 * 4.184e15 / 1000 / m)
    by (apply quotient_nonneg; lra).
  lra.
Qed.

Lemma gravity_energyReduction_bounds (m w : R) :
  0 < m -> 0 <= w ->
  0 <= MitigationResult.energyReduction (calculateGravityTractor m w) <= 100.
Proof.
  intros Hm Hw. unfold calculateGravityTractor.
  cbv beta iota zeta delta [MitigationResult.energyReduction JSMath.pow_n].
  apply min_cap_bounds; [| lra].
  assert (Ha : 0 <= 6.674e-11 * 1000 * m / 100 ^ 2 / m).
  { apply quotient_nonneg; [| exact Hm].
    apply quotient_nonneg; [nra | simpl; lra]. }
  assert (Ht := seconds_nonneg w Hw).
  assert (Hv : 0 <= 6.674e-11 * 1000 * m / 100 ^ 2 / m
                    * (w * 365.25 * 24 * 3600))
    by (apply Rmult_le_pos; assumption).
  lra.
Qed.

Lemma ion_energyReduction_bounds (m d w : R) :
  0 < m -> 0 <= w ->
  0 <= MitigationResult.energyReduction (calculateIonBeam m d w) <= 100.
Proof.
  intros Hm Hw. unfold calculateIonBeam.
  cbv beta iota zeta delta [MitigationResult.energyReduction].
  apply min_cap_bounds; [| lra].
  assert (Ha : 0 <= 0.5 * 0.7 / m) by (apply quotient_nonneg; lra).
  assert (Ht := seconds_nonneg w Hw).
  assert (Hv : 0 <= 0.5 * 0.7 / m * (w * 365.25 * 24 * 3600))
    by (apply Rmult_le_pos; assumption).
  lra.
Qed.

(** For the kinetic impactor the reduction is [(2 r - r^2) * 100] at the
    ratio [r] of the velocity change to the asteroid's velocity in m/s:
    at most 100 for every [r], and non-negative exactly when [r <= 2]. *)
Lemma kinetic_energyReduction_bounds (m v w : R) :
  0 < m -> 0 < v ->
  let r := calculateKineticImpactor m v w in
  MitigationResult.energyReduction r <= 100
  /\ (0 <= MitigationResult.energyReduction r
      <-> MitigationResult.velocityChange r <= 2 * (v * 1000)).
Proof.
  intros Hm Hv r. subst r. unfold calculateKineticImpactor.
  cbv beta iota zeta
    delta [MitigationResult.energyReduction MitigationResult.velocityChange].
  set (dv := 1.5 * (500 * 10000) / m).
  assert (Hdv : 0 < dv).
  { unfold dv. apply Rdiv_lt_0_compat; lra. }
  set (q := dv / (v * 1000)).
  assert (Hq : 0 < q) by (unfold q; apply Rdiv_lt_0_compat; lra).
  assert (Hdvq : dv = q * (v * 1000)) by (unfold q; field; lra).
  clearbody q. clearbody dv.
  assert (Hsq : 0 <= (q - 1) * (q - 1)) by apply Rle_0_sqr.
  split; [lra |]. split; intros H.
  - assert (Hq2 : q <= 2) by nra. nra.
  - assert (Hq2 : q <= 2) by nra. nra.
Qed.

(** Beyond twice the asteroid's velocity the kinetic impactor's energy
    reduction is not positive. *)
Lemma kinetic_energyReduction_nonpos (m v w : R) :
  0 < m -> 0 < v ->
  let r := calculateKineticImpactor m v w in
  2 * (v * 1000) <= MitigationResult.velocityChange r ->
  MitigationResult.energyReduction r <= 0.
Proof.
  intros Hm Hv r. subst r. unfold calculateKineticImpactor.
  cbv beta iota zeta
    delta [MitigationResult.energyReduction MitigationResult.velocityChange].
  set (dv := 1.5 * (500 * 10000) / m).
  set (q := dv / (v * 1000)).
  assert (Hdvq : dv = q * (v * 1000)) by (unfold q; field; lra).
  clearbody q. clearbody dv. intros H.
  assert (Hq2 : 2 <= q) by nra. nra.
Qed.

(** C4 (amended).  For a strategy other than [none], a mass between 1e-6
    and 1e30 kg, a positive diameter, a velocity between 0.001 and 1e6
    km/s and a warning time between 0 and 1e9 years, the energy
    reduction is at most 100.  It is non-negative for the nuclear device,
    the gravity tractor and the ion beam.  For the kinetic impactor it
    is non-negative when the velocity change is at most twice the
    asteroid's velocity (in m/s), and not positive when it is at least
    twice that velocity. *)
Theorem energyReduction_bounds :
  forall strategy mass diameter velocity warningTime,
    strategy <> none ->
    1e-6 <= mass <= 1e30 -> 0 < diameter ->
    1e-3 <= velocity <= 1e6 -> 0 <= warningTime <= 1e9 ->
    exists r,
      calculateMitigation strategy mass diameter velocity warningTime = Some r
      /\ MitigationResult.energyReduction r <= 100
      /\ (strategy <> kinetic_impactor ->
          0 <= MitigationResult.energyReduction r)
      /\ (strategy = kinetic_impactor ->
          (MitigationResult.velocityChange r <= 2 * (velocity * 1000) ->
           0 <= MitigationResult.energyReduction r)
          /\ (2 * (velocity * 1000) <= MitigationResult.velocityChange r ->
              MitigationResult.energyReduction r <= 0)).
Proof.
  intros strategy m d v w Hs Hmr Hd Hvr Hwr.
  assert (Hm : 0 < m) by lra. assert (Hv : 0 < v) by lra.
  assert (Hw : 0 <= w) by lra.
  destruct strategy; [contradiction | | | |];
    (eexists; split; [reflexivity |]).
  - destruct (kinetic_energyReduction_bounds m v w Hm Hv) as [Hle Hiff].
    split; [exact Hle |]. split; [intros H; contradiction |].
    intros _. split; [apply Hiff |].
    apply (kinetic_energyReduction_nonpos m v w Hm Hv).
  - destruct (nuclear_energyReduction_bounds m d w Hm) as [H0 H100].
    split; [exact H100 |]. split; [intros _; exact H0 | discriminate].
  - destruct (gravity_energyReduction_bounds m w Hm Hw) as [H0 H100].
    split; [exact H100 |]. split; [intros _; exact H0 | discriminate].
  - destruct (ion_energyReduction_bounds m d w Hm Hw) as [H0 H100].
    split; [exact H100 |]. split; [intros _; exact H0 | discriminate].
Qed.

Lemma energyReduction_bounds_witness :
  exists r,
    calculateMitigation nuclear_device 1.9e11 500 20 10 = Some r
    /\ 0 <= MitigationResult.energyReduction r <= 100.
Proof.
  assert (Hs : nuclear_device <> none) by discriminate.
  assert (Hk : nuclear_device <> kinetic_impactor) by discriminate.
  destruct (energyReduction_bounds nuclear_device 1.9e11 500 20 10 Hs)
    as (r & Hr & H100 & H0 & _); try lra.
  exists r. split; [exact Hr |]. split; [exact (H0 Hk) | exact H100].
Defined.

(** Outside that range of masses the bound is lost on binary64 numbers:
    against a mass of 1e-303 kg the velocity change overflows to
    infinity and the energy reduction is NaN. *)
Lemma kinetic_energyReduction_nan_on_overflow :
  Binary64.MitigationResult.velocityChange
    (Binary64.calculateKineticImpactor 1e-303 20 5) = infinity
  /\ is_nan (Binary64.MitigationResult.energyReduction
               (Binary64.calculateKineticImpactor 1e-303 20 5)) = true.
Proof. vm_compute. split; reflexivity. Qed.

(** C4 as stated fails.  A kinetic impactor sent against a 100 kg body
    (0.4 m across) moving at 20 km/s changes its velocity by 75000 m/s,
    3.75 times the body's own; the energy reduction is -656.25, below
    the interval [0, 100]. *)
Lemma kinetic_energyReduction_negative :
  exists r,
    calculateMitigation kinetic_impactor 100 0.4 20 5 = Some r
    /\ MitigationResult.velocityChange r = 75000
    /\ MitigationResult.energyReduction r = -656.25
    /\ ~ (0 <= MitigationResult.energyReduction r <= 100).
Proof.
  eexists. split; [reflexivity |].
  cbv beta iota zeta
    delta [calculateKineticImpactor MitigationResult.energyReduction
           MitigationResult.velocityChange].
  assert (Hdv : 1.5 * (500 * 10000) / 100 = 75000) by lra.
  rewrite Hdv.
  assert (Hq : 75000 / (20 * 1000) = 3.75) by lra.
  rewrite Hq.
  split; [reflexivity |]. split; [lra | lra].
Qed.

(** * Further properties of the calculators *)

(** ** Scaling laws of mass and energy *)

(** X1.  Mass follows the cube of the diameter and energy the square of
    the velocity: for scale factors [k] and [j] between 0.001 and 1000, a
    diameter between 0.001 and 1e6 m and a velocity between 0.001 and
    1000 km/s, the mass at [k * d] agrees with [k^3] times the mass at
    [d], and the energy at [k * d] and [j * v] with [k^3 * j^2] times the
    energy at [d] and [v], up to rounding. *)
Theorem mass_energy_scaling :
  forall k j d v,
    1e-3 <= k <= 1e3 -> 1e-3 <= j <= 1e3 ->
    1e-3 <= d <= 1e6 -> 1e-3 <= v <= 1e3 ->
    closeTo (calculateMass (k * d)) (k ^ 3 * calculateMass d)
    /\ closeTo (calculateEnergy (calculateMass (k * d)) (j * v))
               (k ^ 3 * j ^ 2 * calculateEnergy (calculateMass d) v).
Proof.
  intros k j d v _ _ _ _.
  assert (Hm : calculateMass (k * d) = k ^ 3 * calculateMass d).
  { unfold calculateMass, JSMath.pow_n, ASTEROID_DENSITY. field. }
  split; apply closeTo_eq; [exact Hm |].
  rewrite Hm, !calculateEnergy_linear.
  generalize (calculateMass d). intros m.
  unfold TNT_ENERGY. field. lra.
Qed.

Lemma mass_energy_scaling_witness :
  closeTo (calculateMass (2 * 500)) (2 ^ 3 * calculateMass 500).
Proof.
  refine (proj1 (mass_energy_scaling 2 1 500 20 _ _ _ _)); lra.
Defined.

(** In exact arithmetic the recomputed joules are 1000 times the kinetic
    energy. *)
Lemma joules_are_1000_kinetic (m v : R) :
  calculateEnergy m v * 1e6 * TNT_ENERGY
  = 1000 * (0.5 * m * (v * 1000) ^ 2).
Proof.
  rewrite calculateEnergy_linear. unfold TNT_ENERGY.
  replace (m * (0.5 * (v * 1000) ^ 2 / 4.184e9 / 1000) * 1e6 * 4.184e9)
    with (m * (v * 1000) ^ 2 * (0.5 / 4.184e9 / 1000 * 1e6 * 4.184e9))
    by (field; lra).
  replace (1000 * (0.5 * m * (v * 1000) ^ 2))
    with (m * (v * 1000) ^ 2 * (1000 * 0.5)) by ring.
  generalize (m * (v * 1000) ^ 2). intros p. lra.
Qed.

(** X2.  [calculateEnergy] divides the kinetic energy [m v^2 / 2] (in
    joules, velocity in m/s) by [TNT_ENERGY * 1000], while
    [calculateCraterDiameter] and [calculateSeismicMagnitude] multiply
    the result by [1e6 * TNT_ENERGY]: for a mass between 1e-6 and 1e30 kg
    and a velocity between 0.001 and 1e6 km/s, the joules they work with
    lie between 999 and 1001 times the kinetic energy, not at it. *)
Theorem energy_joules_round_trip :
  forall m v,
    1e-6 <= m <= 1e30 -> 1e-3 <= v <= 1e6 ->
    999 * (0.5 * m * (v * 1000) ^ 2)
    <= calculateEnergy m v * 1e6 * TNT_ENERGY
    <= 1001 * (0.5 * m * (v * 1000) ^ 2).
Proof.
  intros m v Hm Hv. rewrite joules_are_1000_kinetic.
  assert (Hsq : 0 <= (v * 1000) ^ 2) by apply pow2_ge_0.
  assert (Hke : 0 <= 0.5 * m * (v * 1000) ^ 2).
  { apply Rmult_le_pos; [lra | exact Hsq]. }
  lra.
Qed.

Lemma energy_joules_round_trip_witness :
  999 * (0.5 * 1.9e11 * (20 * 1000) ^ 2)
  <= calculateEnergy 1.9e11 20 * 1e6 * TNT_ENERGY.
Proof.
  refine (proj1 (energy_joules_round_trip 1.9e11 20 _ _)); lra.
Defined.

(** ** Seismic magnitude *)

Lemma ln_10_pos : 0 < ln 10.
Proof. rewrite <- ln_1. apply ln_increasing; lra. Qed.

(** In exact arithmetic ten times the energy adds 2/3 to the magnitude. *)
Lemma seismicMagnitude_decade (e : R) :
  0 < e ->
  calculateSeismicMagnitude (10 * e) = calculateSeismicMagnitude e + 2 / 3.
Proof.
  intros He. assert (H10 := ln_10_pos).
  unfold calculateSeismicMagnitude, JSMath.log10.
  assert (HJ := joules_pos e He).
  replace (10 * e * 1e6 * TNT_ENERGY) with (10 * (e * 1e6 * TNT_ENERGY))
    by ring.
  rewrite ln_mult by lra.
  generalize (ln (e * 1e6 * TNT_ENERGY)). intros l.
  field. lra.
Qed.

(** X3.  For energies between 1e-20 and 1e20 the seismic magnitude grows
    with the energy: an energy larger by at least one part in a million
    gives a strictly larger magnitude, and ten times the energy adds
    between 0.66 and 0.67 to it (2/3 in exact arithmetic). *)
Theorem seismicMagnitude_growth :
  forall e1 e2,
    1e-20 <= e1 -> e1 * (1 + 1e-6) <= e2 -> e2 <= 1e20 ->
    calculateSeismicMagnitude e1 < calculateSeismicMagnitude e2
    /\ 0.66 <= calculateSeismicMagnitude (10 * e1)
               - calculateSeismicMagnitude e1 <= 0.67.
Proof.
  intros e1 e2 Hlo Hgap Hhi.
  assert (H1 : 0 < e1) by lra. assert (H12 : e1 < e2) by lra.
  split.
  - assert (H10 := ln_10_pos).
    unfold calculateSeismicMagnitude, JSMath.log10.
    assert (HJ1 := joules_pos e1 H1).
    assert (Hln : ln (e1 * 1e6 * TNT_ENERGY) < ln (e2 * 1e6 * TNT_ENERGY)).
    { apply ln_increasing; [exact HJ1 |]. unfold TNT_ENERGY. nra. }
    assert (Hq : ln (e1 * 1e6 * TNT_ENERGY) / ln 10
                 < ln (e2 * 1e6 * TNT_ENERGY) / ln 10).
    { unfold Rdiv. apply Rmult_lt_compat_r;
        [now apply Rinv_0_lt_compat | exact Hln]. }
    lra.
  - rewrite (seismicMagnitude_decade e1 H1). lra.
Qed.

Lemma seismicMagnitude_growth_witness :
  calculateSeismicMagnitude 15 < calculateSeismicMagnitude 9380.
Proof.
  refine (proj1 (seismicMagnitude_growth 15 9380 _ _ _)); lra.
Defined.

(** ** Damage radii *)

Lemma Math_pow_exponent_le (x a b : R) :
  1 <= x -> a <= b -> JSMath.pow x a <= JSMath.pow x b.
Proof.
  intros Hx Hab. unfold JSMath.pow.
  destruct (Rlt_dec 0 x); [| lra]. now apply Rle_Rpower.
Qed.

(** X4.  From one megaton upwards the thermal radius exceeds the
    shockwave radius, so the area [estimateAffectedPopulation] counts is
    the thermal disc. *)
Theorem thermal_exceeds_shockwave :
  forall e,
    1 <= e ->
    calculateShockwaveRadius e < calculateThermalRadius e
    /\ JSMath.max (calculateShockwaveRadius e) (calculateThermalRadius e)
       = calculateThermalRadius e.
Proof.
  intros e He.
  assert (Hlt : calculateShockwaveRadius e < calculateThermalRadius e).
  { unfold calculateShockwaveRadius, calculateThermalRadius.
    assert (H1 : JSMath.pow e 0.33 <= JSMath.pow e 0.41)
      by (apply Math_pow_exponent_le; lra).
    assert (H2 : 0 < JSMath.pow e 0.33) by (apply Math_pow_pos; lra).
    lra. }
  split; [exact Hlt |].
  unfold JSMath.max. apply Rmax_right. lra.
Qed.

Lemma thermal_exceeds_shockwave_witness :
  calculateShockwaveRadius 9380 < calculateThermalRadius 9380.
Proof.
  refine (proj1 (thermal_exceeds_shockwave 9380 _)). lra.
Defined.

(** ** Crater and entry angle *)

(** X5.  For a fixed energy between 1e-20 and 1e20 the crater widens as
    the entry angle steepens: of two angles between 0.1 and 90 degrees
    that are at least a tenth of a degree apart, the steeper gives the
    strictly larger crater, over land and over ocean alike; the velocity
    argument plays no part. *)
Theorem craterDiameter_increases_with_angle :
  forall e v1 v2 a1 a2 isOcean,
    1e-20 <= e <= 1e20 ->
    0.1 <= a1 -> a1 + 0.1 <= a2 -> a2 <= 90 ->
    calculateCraterDiameter e v1 a1 isOcean
    < calculateCraterDiameter e v2 a2 isOcean.
Proof.
  intros e v1 v2 a1 a2 isOcean Her Ha1 Hgap Ha2.
  assert (He : 0 < e) by lra.
  unfold calculateCraterDiameter.
  assert (HPI := PI_pos).
  assert (Hs1 : 0 < JSMath.sin (a1 * JSMath.PI / 180))
    by (apply sin_angle_pos; lra).
  assert (Hs : JSMath.sin (a1 * JSMath.PI / 180)
               < JSMath.sin (a2 * JSMath.PI / 180)).
  { unfold JSMath.sin, JSMath.PI in *. apply sin_increasing_1; nra. }
  assert (Hp : JSMath.pow (JSMath.sin (a1 * JSMath.PI / 180)) (1 / 3)
               < JSMath.pow (JSMath.sin (a2 * JSMath.PI / 180)) (1 / 3))
    by (apply Math_pow_lt; [lra | split; assumption]).
  assert (HJ := Math_pow_pos _ 0.22 (joules_pos e He)).
  assert (HT := terrainFactor_pos isOcean).
  apply Rmult_lt_compat_r; [lra |].
  apply Rmult_lt_compat_r; [exact HT |].
  apply Rmult_lt_compat_l; [| exact Hp].
  apply Rmult_lt_0_compat; [lra | exact HJ].
Qed.

Lemma craterDiameter_increases_with_angle_witness :
  calculateCraterDiameter 9380 20 15 true
  < calculateCraterDiameter 9380 20 90 true.
Proof.
  apply (craterDiameter_increases_with_angle 9380 20 20 15 90 true); lra.
Defined.

(** ** Tsunami height *)




(** ** Regions and population *)

Lemma Rltb_true_inv (x y : R) : (x <? y) = true -> x < y.
Proof. unfold Rltb. destruct (Rlt_dec x y); [trivial | discriminate]. Qed.

Lemma Rltb_false_inv (x y : R) : (x <? y) = false -> ~ x < y.
Proof. unfold Rltb. destruct (Rlt_dec x y); [discriminate | trivial]. Qed.

(** Turns the boolean tests among the hypotheses into the inequalities
    they decide. *)
Ltac reflect_comparisons :=
  unfold Rgtb in *;
  repeat match goal with
    | H : (_ && _) = true |- _ => apply andb_true_iff in H; destruct H
    | H : (_ || _) = true |- _ => apply orb_true_iff in H; destruct H
    | H : (_ <? _) = true |- _ => apply Rltb_true_inv in H
    | H : (_ <? _) = false |- _ => apply Rltb_false_inv in H
    end.

(** X7.  Whatever the coordinates, the region [estimateAffectedPopulation]
    picks is a key of [populationDensities]: the lookup never misses, and
    the density it finds lies between 0 and 150. *)
Theorem regionOf_has_density :
  forall lat lon,
    exists d,
      lookup (regionOf lat lon) populationDensities = Some d
      /\ lookupOrZero (regionOf lat lon) populationDensities = d
      /\ 0 <= d <= 150.
Proof.
  intros lat lon. unfold regionOf, lookupOrZero.
  repeat match goal with
    | |- context [if ?c then _ else _] => destruct c
    end;
    cbn; eexists; (split; [reflexivity | split; [reflexivity | lra]]).
Qed.

Lemma round_nonneg_integer (x : R) :
  0 <= x -> exists n : Z, (0 <= n)%Z /\ JSMath.round x = IZR n.
Proof.
  intros Hx. unfold JSMath.round. exists (Int_part (x + 0.5)).
  split; [| reflexivity].
  destruct (base_Int_part (x + 0.5)) as [_ H].
  assert (Hlt : IZR (-1) < IZR (Int_part (x + 0.5))) by (simpl; lra).
  apply lt_IZR in Hlt. lia.
Qed.

(** X8.  For shockwave and thermal radii between -1e150 and 1e150, whose
    squares are finite numbers, the affected population is a
    non-negative integer at every latitude and longitude. *)
Theorem affectedPopulation_nonneg_integer :
  forall lat lon shockwaveRadius thermalRadius,
    -1e150 <= shockwaveRadius <= 1e150 ->
    -1e150 <= thermalRadius <= 1e150 ->
    exists n : Z,
      (0 <= n)%Z
      /\ estimateAffectedPopulation lat lon shockwaveRadius thermalRadius
         = IZR n.
Proof.
  intros lat lon sw th _ _. unfold estimateAffectedPopulation.
  destruct (regionOf_has_density lat lon) as (d & _ & -> & Hd & _).
  apply round_nonneg_integer.
  apply Rmult_le_pos; [exact Hd |].
  apply Rmult_le_pos; [left; exact PI_pos |].
  unfold JSMath.pow_n. apply pow2_ge_0.
Qed.

Lemma affectedPopulation_nonneg_integer_witness :
  exists n : Z,
    (0 <= n)%Z /\ estimateAffectedPopulation 40.7 (-74.0) 52 137 = IZR n.
Proof.
  apply (affectedPopulation_nonneg_integer 40.7 (-74.0) 52 137); lra.
Defined.

(** X9.  The "oceania" bucket is tested after "asia", whose test has no
    latitude bound, so it is assigned exactly to the points with
    [|lat| < 60], [lat < -10] and [150 <= lon < 180]: west of 150 degrees
    the same latitudes count as "asia". *)
Theorem regionOf_oceania_iff :
  forall lat lon,
    regionOf lat lon = "oceania"%string
    <-> (Rabs lat < 60 /\ lat < -10 /\ 150 <= lon < 180).
Proof.
  intros lat lon. unfold regionOf, JSMath.abs. split.
  - destruct (Rabs lat <? 60) eqn:Hlat; [| discriminate].
    destruct ((lon >? -130) && (lon <? -60) && (lat >? 15));
      [discriminate |].
    destruct ((lon >? -80) && (lon <? -35) && (lat <? 15));
      [discriminate |].
    destruct ((lon >? -10) && (lon <? 40) && (lat >? 35));
      [discriminate |].
    destruct ((lon >? -20) && (lon <? 50) && (lat <? 35) && (lat >? -35));
      [discriminate |].
    destruct ((lon >? 40) && (lon <? 150)) eqn:Hasia; [discriminate |].
    destruct ((lon >? 110) && (lon <? 180) && (lat <? -10)) eqn:Hoc;
      [| discriminate].
    intros _. reflect_comparisons.
    apply andb_false_iff in Hasia.
    destruct Hasia as [Hasia | Hasia]; reflect_comparisons; lra.
  - intros (Hlat & Hs & Hlon1 & Hlon2).
    decide_comparisons. reflexivity.
Qed.

(** X10.  The ocean flag and the population bucket come from independent
    boxes.  Between 120 and 150 degrees east, at [|lat| < 60], every
    impact is flagged as an ocean impact without a draw, while its
    population is counted at the density of "asia", 150 per square km. *)
Theorem ocean_flag_with_asian_density :
  forall d v a lat lon s,
    Rabs lat < 60 -> 120 < lon < 150 ->
    let r := eval (calculateImpact (AsteroidData.mk d v a lat lon)) s in
    ImpactResults.isOceanImpact r = true
    /\ regionOf lat lon = "asia"%string
    /\ ImpactResults.affectedPopulation r
       = JSMath.round
           (150 * (JSMath.PI
                   * JSMath.pow_n
                       (JSMath.max (ImpactResults.shockwaveRadius r)
                                   (ImpactResults.thermalRadius r)) 2)).
Proof.
  intros d v a lat lon s Hlat Hlon r. subst r.
  rewrite calculateImpact_run. cbn.
  assert (Hbox : OceanBox lat lon).
  { left. split; [left; lra | exact Hlat]. }
  assert (Hregion : regionOf lat lon = "asia"%string).
  { unfold regionOf, JSMath.abs. decide_comparisons. reflexivity. }
  split; [| split].
  - unfold eval. rewrite (isOceanImpact_in_box _ _ _ Hbox). reflexivity.
  - exact Hregion.
  - unfold estimateAffectedPopulation. rewrite Hregion. reflexivity.
Qed.

Lemma ocean_flag_with_asian_density_witness :
  ImpactResults.isOceanImpact
    (eval (calculateImpact (AsteroidData.mk 500 20 45 10 135)) highDraws)
  = true.
Proof.
  refine (proj1 (ocean_flag_with_asian_density
                   500 20 45 10 135 highDraws _ _)).
  - rewrite Rabs_pos_eq; lra.
  - lra.
Defined.

(** X11.  Outside the three ocean boxes [isOceanImpact] always consults
    the random source: it takes exactly one draw and answers [true]
    exactly when the draw is below 0.71, wherever the point lies. *)
Theorem isOceanImpact_outside_boxes_draws :
  forall lat lon s,
    ~ OceanBox lat lon ->
    isOceanImpact lat lon s = (s 0%nat <? EARTH_OCEAN_COVERAGE, rest s).
Proof.
  intros lat lon s Hout. apply isOceanImpact_outside.
  - destruct (inPacificBox lat lon) eqn:H; [| reflexivity].
    exfalso. apply Hout. left.
    unfold inPacificBox, JSMath.abs in H. reflect_comparisons;
      (split; [| assumption]); [left | right]; lra.
  - destruct (inAtlanticBox lat lon) eqn:H; [| reflexivity].
    exfalso. apply Hout. right. left.
    unfold inAtlanticBox, JSMath.abs in H. reflect_comparisons.
    split; [lra | assumption].
  - destruct (inIndianBox lat lon) eqn:H; [| reflexivity].
    exfalso. apply Hout. right. right.
    unfold inIndianBox in H. reflect_comparisons.
    split; lra.
Qed.

Lemma isOceanImpact_outside_boxes_draws_witness :
  eval (isOceanImpact 48.9 2.3) lowDraws = true.
Proof.
  assert (Hout : ~ OceanBox 48.9 2.3).
  { unfold OceanBox, PacificBox, AtlanticBox, IndianBox.
    intros [[[H | H] _] | [[H _] | [H _]]]; lra. }
  unfold eval.
  rewrite (isOceanImpact_outside_boxes_draws 48.9 2.3 lowDraws Hout).
  unfold lowDraws, EARTH_OCEAN_COVERAGE. simpl. apply Rltb_true. lra.
Defined.

(** ** Mitigation: probabilities and scaling *)

Lemma min_ratio_monotone (k cap w1 w2 : R) :
  0 < k -> 0 <= cap <= 0.95 -> 0 <= w1 <= w2 ->
  0 <= JSMath.min (w1 / k) cap
  /\ JSMath.min (w1 / k) cap <= JSMath.min (w2 / k) cap
  /\ JSMath.min (w2 / k) cap <= 0.95
  /\ (k <= w1 -> JSMath.min (w1 / k) cap = JSMath.min (w2 / k) cap).
Proof.
  intros Hk [Hc0 Hc] [Hw1 Hw12]. unfold JSMath.min.
  assert (Hik : 0 < / k) by now apply Rinv_0_lt_compat.
  assert (Hq1 : 0 <= w1 / k) by (unfold Rdiv; nra).
  assert (Hq12 : w1 / k <= w2 / k) by (unfold Rdiv; nra).
  repeat split.
  - apply Rmin_glb; assumption.
  - apply Rle_min_compat_r. exact Hq12.
  - eapply Rle_trans; [apply Rmin_r | exact Hc].
  - intros Hkw.
    assert (H1 : 1 <= w1 / k).
    { replace 1 with (k / k) by (field; lra). unfold Rdiv. nra. }
    rewrite !Rmin_right by lra. reflexivity.
Qed.

(** X12.  For every strategy other than [none] and warning times
    [0 <= w1 <= w2], the success probability at [w1] is non-negative, at
    most the one at [w2], and never above 0.95; once the warning time has
    reached the strategy's [warningTimeNeeded], more warning time no
    longer changes it. *)
Theorem successProbability_monotone :
  forall strategy m d v w1 w2,
    strategy <> none -> 0 <= w1 <= w2 ->
    exists r1 r2,
      calculateMitigation strategy m d v w1 = Some r1
      /\ calculateMitigation strategy m d v w2 = Some r2
      /\ 0 <= MitigationResult.successProbability r1
      /\ MitigationResult.successProbability r1
         <= MitigationResult.successProbability r2
      /\ MitigationResult.successProbability r2 <= 0.95
      /\ (MitigationResult.warningTimeNeeded r1 <= w1 ->
          MitigationResult.successProbability r1
          = MitigationResult.successProbability r2).
Proof.
  intros strategy m d v w1 w2 Hs Hw.
  destruct strategy; [contradiction | | | |];
    (do 2 eexists; split; [reflexivity |]; split; [reflexivity |]); cbn.
  - apply (min_ratio_monotone 5 0.95 w1 w2); lra.
  - apply (min_ratio_monotone 3 0.90 w1 w2); lra.
  - apply (min_ratio_monotone 10 0.85 w1 w2); lra.
  - apply (min_ratio_monotone 8 0.80 w1 w2); lra.
Qed.

Lemma successProbability_monotone_witness :
  exists r1 r2,
    calculateMitigation gravity_tractor 1.9e11 500 20 10 = Some r1
    /\ calculateMitigation gravity_tractor 1.9e11 500 20 20 = Some r2
    /\ MitigationResult.successProbability r1
       = MitigationResult.successProbability r2.
Proof.
  assert (Hs : gravity_tractor <> none) by discriminate.
  assert (Hw : 0 <= 10 <= 20) by lra.
  destruct (successProbability_monotone
              gravity_tractor 1.9e11 500 20 10 20 Hs Hw)
    as (r1 & r2 & H1 & H2 & _ & _ & _ & Heq).
  exists r1, r2. split; [exact H1 |]. split; [exact H2 |].
  apply Heq. injection H1 as <-. cbn. lra.
Defined.

(** X13.  The kinetic impactor, the nuclear device and the ion beam
    deliver a momentum that does not depend on the asteroid: for two
    masses between 1e-6 and 1e30 kg and a warning time between 0.001 and
    1e6 years, the products mass times velocity change agree up to
    rounding, so the velocity change is inversely proportional to the
    mass. *)
Theorem velocityChange_inverse_to_mass :
  forall strategy m1 m2 d v w,
    In strategy [kinetic_impactor; nuclear_device; ion_beam] ->
    1e-6 <= m1 <= 1e30 -> 1e-6 <= m2 <= 1e30 -> 1e-3 <= w <= 1e6 ->
    exists r1 r2,
      calculateMitigation strategy m1 d v w = Some r1
      /\ calculateMitigation strategy m2 d v w = Some r2
      /\ closeTo (m1 * MitigationResult.velocityChange r1)
                 (m2 * MitigationResult.velocityChange r2).
Proof.
  intros strategy m1 m2 d v w Hin H1 H2 _.
  destruct Hin as [<- | [<- | [<- | []]]];
    (do 2 eexists; split; [reflexivity |]; split; [reflexivity |]);
    cbn; apply closeTo_eq.
  - field. lra.
  - field. lra.
  - generalize (w * 365.25 * 24 * 3600). intros t. field. lra.
Qed.

Lemma velocityChange_inverse_to_mass_witness :
  exists r1 r2,
    calculateMitigation kinetic_impactor 1.9e11 500 20 5 = Some r1
    /\ calculateMitigation kinetic_impactor 3.8e11 500 20 5 = Some r2
    /\ closeTo (1.9e11 * MitigationResult.velocityChange r1)
               (3.8e11 * MitigationResult.velocityChange r2).
Proof.
  apply (velocityChange_inverse_to_mass kinetic_impactor 1.9e11 3.8e11 500 20 5);
    [simpl; auto | lra | lra | lra].
Defined.

(** X14.  For a mass between 1e-6 and 1e30 kg, a warning time between
    0.001 and 1000 years and a factor [k] between 0.001 and 1000,
    multiplying the warning time by [k] multiplies the trajectory
    deflection by [k] for the two impulsive strategies (kinetic impactor,
    nuclear device) and by [k^2] for the two continuous ones (gravity
    tractor, ion beam), up to rounding. *)
Theorem trajectoryDeflection_scaling :
  forall m d v w k,
    1e-6 <= m <= 1e30 -> 1e-3 <= w <= 1e3 -> 1e-3 <= k <= 1e3 ->
    closeTo
      (MitigationResult.trajectoryDeflection
         (calculateKineticImpactor m v (k * w)))
      (k * MitigationResult.trajectoryDeflection
             (calculateKineticImpactor m v w))
    /\ closeTo
         (MitigationResult.trajectoryDeflection
            (calculateNuclearDevice m d (k * w)))
         (k * MitigationResult.trajectoryDeflection
                (calculateNuclearDevice m d w))
    /\ closeTo
         (MitigationResult.trajectoryDeflection
            (calculateGravityTractor m (k * w)))
         (k ^ 2 * MitigationResult.trajectoryDeflection
                    (calculateGravityTractor m w))
    /\ closeTo
         (MitigationResult.trajectoryDeflection
            (calculateIonBeam m d (k * w)))
         (k ^ 2 * MitigationResult.trajectoryDeflection
                    (calculateIonBeam m d w)).
Proof.
  intros m d v w k _ _ _.
  unfold calculateKineticImpactor, calculateNuclearDevice,
    calculateGravityTractor, calculateIonBeam.
  cbv beta iota zeta delta [MitigationResult.trajectoryDeflection].
  generalize (1.5 * (500 * 10000) / m)
             (0.1 * 4.184e15 / 1000 / m)
             (6.674e-11 * 1000 * m / JSMath.pow_n 100 2 / m)
             (0.5 * 0.7 / m).
  intros a b c e. repeat split; apply closeTo_eq; field.
Qed.

Lemma trajectoryDeflection_scaling_witness :
  closeTo
    (MitigationResult.trajectoryDeflection
       (calculateGravityTractor 1.9e11 (2 * 10)))
    (2 ^ 2 * MitigationResult.trajectoryDeflection
               (calculateGravityTractor 1.9e11 10)).
Proof.
  refine (proj1 (proj2 (proj2
            (trajectoryDeflection_scaling 1.9e11 500 20 10 2 _ _ _)))); lra.
Defined.

(** ** Sign of the impact results *)

(** X15.  For a diameter between 0.001 and 1e9 m, a velocity between
    0.001 and 1000 km/s and an entry angle between 0.001 and 90 degrees,
    every size and radius [calculateImpact] reports is strictly
    positive, and so is the tsunami height whenever one is reported. *)
Theorem impact_results_positive :
  forall d v a lat lon s,
    1e-3 <= d <= 1e9 -> 1e-3 <= v <= 1e3 -> 1e-3 <= a <= 90 ->
    let r := eval (calculateImpact (AsteroidData.mk d v a lat lon)) s in
    0 < ImpactResults.mass r
    /\ 0 < ImpactResults.energy r
    /\ 0 < ImpactResults.craterDiameter r
    /\ 0 < ImpactResults.craterDepth r
    /\ 0 < ImpactResults.shockwaveRadius r
    /\ 0 < ImpactResults.thermalRadius r
    /\ (forall h, ImpactResults.tsunamiHeight r = Some h -> 0 < h).
Proof.
  intros d v a lat lon s Hdr Hvr Har r. subst r.
  assert (Hd : 0 < d) by lra. assert (Hv : 0 < v) by lra.
  assert (Ha : 0 < a <= 90) by lra.
  rewrite calculateImpact_run. cbn.
  assert (Hm := calculateMass_pos d Hd).
  assert (He := calculateEnergy_pos _ v Hm Hv).
  set (e := calculateEnergy (calculateMass d) v) in *.
  assert (Hc : forall b, 0 < calculateCraterDiameter e v a b)
    by (intros b; now apply calculateCraterDiameter_pos).
  assert (Hs : 0 < calculateShockwaveRadius e).
  { unfold calculateShockwaveRadius.
    assert (H := Math_pow_pos e 0.33 He). lra. }
  assert (Ht : 0 < calculateThermalRadius e).
  { unfold calculateThermalRadius.
    assert (H := Math_pow_pos e 0.41 He). lra. }
  repeat split; try assumption; try apply Hc.
  - unfold calculateCraterDepth. specialize (Hc (eval (isOceanImpact lat lon) s)).
    lra.
  - intros h. destruct (eval (isOceanImpact lat lon) s); [| discriminate].
    intros [= <-]. unfold calculateTsunamiHeight, defaultWaterDepth, JSMath.min.
    assert (Hp := Math_pow_pos e 0.25 He).
    specialize (Hc true).
    assert (Hmin : 0 < Rmin (calculateCraterDiameter e v a true * 1000 / 10)
                            (4000 * 0.5))
      by (apply Rmin_glb_lt; lra).
    assert (Hprod := Rmult_lt_0_compat _ _ Hmin Hp).
    lra.
Qed.

Lemma impact_results_positive_witness :
  0 < ImpactResults.craterDiameter
        (eval (calculateImpact pacificStrike) lowDraws).
Proof.
  refine (proj1 (proj2 (proj2
            (impact_results_positive 500 20 45 0 150 lowDraws _ _ _))));
    lra.
Defined.

(** ** The application component *)

Lemma recompute_run (st : App.State) (s : RandomSource) :
  let r :=
    eval (calculateImpact
            (AsteroidData.mk (App.diameter st) (App.velocity st)
               (App.angle st) (App.impactLat st) (App.impactLon st))) s in
  let st' := eval (App.recompute st) s in
  App.results st' = Some r
  /\ App.mitigationResults st'
     = match App.mitigation st with
       | none => None
       | strategy =>
           calculateMitigation strategy (ImpactResults.mass r)
             (App.diameter st) (App.velocity st) (App.warningTime st)
       end.
Proof.
  unfold eval, App.recompute, bind.
  destruct (calculateImpact _ s) as [r s']. split; reflexivity.
Qed.

Lemma calculateMass_at_least (d : R) :
  10 <= d -> 1500000 <= calculateMass d.
Proof.
  intros Hd. unfold calculateMass, ASTEROID_DENSITY, JSMath.pow_n.
  assert (HPI : 3 < JSMath.PI).
  { unfold JSMath.PI. assert (H := PI2_3_2). lra. }
  assert (Hc : 5 ^ 3 <= (d / 2) ^ 3) by (apply pow_incr; lra).
  simpl in Hc. nra.
Qed.

(** X16.  In the application the mass handed to the mitigation
    calculator is the one computed from the diameter.  For a diameter
    between 10 m and 1e9 m and a velocity between 5 and 1000 km/s (10 and
    5 are the minima of the two sliders), a warning time between 0 and
    1e6 years and one of the four strategies selected, the effect stores
    impact results and a mitigation result for that strategy whose
    energy reduction lies in [0, 100]. *)
Theorem app_energyReduction_in_range :
  forall (st : App.State) (s : RandomSource),
    10 <= App.diameter st <= 1e9 -> 5 <= App.velocity st <= 1e3 ->
    0 <= App.warningTime st <= 1e6 ->
    In (App.mitigation st)
       [kinetic_impactor; nuclear_device; gravity_tractor; ion_beam] ->
    let st' := eval (App.recompute st) s in
    exists r m,
      App.results st' = Some r
      /\ App.mitigationResults st' = Some m
      /\ MitigationResult.strategy m = App.mitigation st
      /\ 0 <= MitigationResult.energyReduction m <= 100.
Proof.
  intros st s Hdr Hvr Hwr Hs st'. subst st'.
  assert (Hd : 10 <= App.diameter st) by lra.
  assert (Hw : 0 <= App.warningTime st) by lra.
  destruct (recompute_run st s) as [Hres Hmit]. rewrite Hres, Hmit.
  eexists. rewrite calculateImpact_run. cbn.
  assert (Hm := calculateMass_at_least _ Hd).
  set (m := calculateMass (App.diameter st)) in *.
  assert (Hm0 : 0 < m) by lra.
  destruct Hs as [<- | [<- | [<- | [<- | []]]]];
    (eexists; split; [reflexivity |]; split; [reflexivity |];
     split; [reflexivity |]).
  - destruct (kinetic_energyReduction_bounds m (App.velocity st)
                (App.warningTime st) Hm0) as [Hle Hiff]; [lra |].
    split; [| exact Hle]. apply Hiff.
    unfold calculateKineticImpactor.
    cbv beta iota zeta delta [MitigationResult.velocityChange].
    assert (Hq : 1.5 * (500 * 10000) / m <= 5).
    { apply Rmult_le_reg_r with m; [exact Hm0 |].
      replace (1.5 * (500 * 10000) / m * m) with (1.5 * (500 * 10000))
        by (field; lra).
      lra. }
    lra.
  - now apply nuclear_energyReduction_bounds.
  - now apply gravity_energyReduction_bounds.
  - now apply ion_energyReduction_bounds.
Qed.

Lemma app_energyReduction_in_range_witness :
  let st :=
    App.mkState 500 20 45 40.7 (-74.0) kinetic_impactor 5
      "Custom Simulation" None None false in
  exists r m,
    App.results (eval (App.recompute st) lowDraws) = Some r
    /\ App.mitigationResults (eval (App.recompute st) lowDraws) = Some m
    /\ MitigationResult.strategy m = kinetic_impactor
    /\ 0 <= MitigationResult.energyReduction m <= 100.
Proof.
  intros st.
  apply (app_energyReduction_in_range st lowDraws); simpl; try lra.
  auto.
Defined.

(** X17.  Saving and loading.  Nothing is saved before results exist.
    Loading the record built from a state [st] into any state [st']
    restores [st]'s name, diameter, velocity, angle and coordinates and
    closes the history panel; it keeps [st']'s warning time, which the
    record does not store, and it restores [st]'s strategy only if one
    was selected: a record saved with no mitigation leaves the strategy
    of [st'] in place. *)
Theorem save_then_load :
  forall (st st' : App.State),
    (App.recordToSave st = None <-> App.results st = None)
    /\ (forall sim,
          App.recordToSave st = Some sim ->
          let st2 := App.handleLoadSimulation sim st' in
          App.simulationName st2 = App.simulationName st
          /\ App.diameter st2 = App.diameter st
          /\ App.velocity st2 = App.velocity st
          /\ App.angle st2 = App.angle st
          /\ App.impactLat st2 = App.impactLat st
          /\ App.impactLon st2 = App.impactLon st
          /\ App.showHistory st2 = false
          /\ App.warningTime st2 = App.warningTime st'
          /\ App.mitigation st2
             = match App.mitigation st with
               | none => App.mitigation st'
               | strategy => strategy
               end).
Proof.
  intros st st'. unfold App.recordToSave. split.
  - destruct (App.results st); split; intros H;
      try reflexivity; discriminate.
  - intros sim. destruct (App.results st) as [r |]; [| discriminate].
    intros [= <-]. cbn. repeat split.
    destruct (App.mitigation st); reflexivity.
Qed.

Lemma save_then_load_witness :
  let saved :=
    App.mkState 325 7.42 45 21.3 (-89.5) none 12 "Apophis"
      (Some (eval (calculateImpact (AsteroidData.mk 325 7.42 45 21.3 (-89.5)))
                  lowDraws))
      None true in
  let current :=
    App.mkState 500 20 45 40.7 (-74.0) ion_beam 5 "Custom Simulation"
      None None true in
  exists sim,
    App.recordToSave saved = Some sim
    /\ App.diameter (App.handleLoadSimulation sim current) = 325
    /\ App.mitigation (App.handleLoadSimulation sim current) = ion_beam
    /\ App.warningTime (App.handleLoadSimulation sim current) = 5.
Proof.
  intros saved current. eexists. split; [reflexivity |].
  destruct (proj2 (save_then_load saved current) _ eq_refl)
    as (_ & Hd & _ & _ & _ & _ & _ & Hw & Hm).
  split; [exact Hd |]. split; [exact Hm | exact Hw].
Defined.

(** ** The 3D scene *)

(** X18.  For a latitude between -90 and 90, a longitude between -180 and
    180 and a radius between 1e-100 and 1e100, [latLonToCartesian] places the
    point on the sphere of that radius around the origin, up to
    rounding; latitude 90 is the point [(0, radius, 0)] for every
    longitude. *)
Theorem latLonToCartesian_on_sphere :
  forall lat lon radius,
    -90 <= lat <= 90 -> -180 <= lon <= 180 -> 1e-100 <= radius <= 1e100 ->
    let p := latLonToCartesian lat lon radius in
    closeTo ((Vector3.x p) ^ 2 + (Vector3.y p) ^ 2 + (Vector3.z p) ^ 2)
            (radius ^ 2)
    /\ latLonToCartesian 90 lon radius = Vector3.mk 0 radius 0.
Proof.
  intros lat lon radius _ _ _ p. subst p. unfold latLonToCartesian.
  cbv beta iota zeta delta [Vector3.x Vector3.y Vector3.z].
  unfold JSMath.sin, JSMath.cos. split.
  - apply closeTo_eq.
    assert (H1 := sin2_cos2 ((90 - lat) * (JSMath.PI / 180))).
    assert (H2 := sin2_cos2 ((lon + 180) * (JSMath.PI / 180))).
    unfold Rsqr in H1, H2.
    generalize dependent (sin ((90 - lat) * (JSMath.PI / 180))).
    generalize dependent (cos ((90 - lat) * (JSMath.PI / 180))).
    intros cp sp H1.
    generalize dependent (sin ((lon + 180) * (JSMath.PI / 180))).
    generalize dependent (cos ((lon + 180) * (JSMath.PI / 180))).
    intros ct st H2.
    transitivity (radius ^ 2 * (sp * sp * (st * st + ct * ct) + cp * cp));
      [ring |].
    rewrite H2, Rmult_1_r, H1. ring.
  - replace ((90 - 90) * (JSMath.PI / 180)) with 0 by ring.
    rewrite sin_0, cos_0. f_equal; ring.
Qed.

Lemma latLonToCartesian_on_sphere_witness :
  let p := latLonToCartesian 40.7 (-74.0) 100 in
  closeTo ((Vector3.x p) ^ 2 + (Vector3.y p) ^ 2 + (Vector3.z p) ^ 2)
          (100 ^ 2).
Proof.
  refine (proj1 (latLonToCartesian_on_sphere 40.7 (-74.0) 100 _ _ _)); lra.
Defined.
